(** * cloud_common.protocols.unit.unit_config: validation of the unit configuration

    The module [unit_config.py] declares the configuration contract as
    pydantic models: every class is a list of annotated fields (type, wire
    alias, default, numeric bounds) and the behaviour is the one pydantic
    gives to such a declaration when [Model.model_validate] is called on a
    JSON-compatible Python value.  The development below embeds

    - the JSON-compatible Python values ([pyval]),
    - the validators pydantic derives from the annotations, in its default
      (lax, non-strict) mode, collecting every line error with its location,
    - each class of [unit_config.py] as a record with its [model_validate]
      and its by-alias dump.

    Numbers.  A Python [int] is a [Z].  A Python [float] is modelled by the
    rational number it denotes ([Q]); the non-finite values (inf, nan) and
    the strings which spell them are outside the model, and the conversion
    of an [int] to a [float] is taken to be exact. *)

From Stdlib Require Import ZArith QArith Qround String Ascii List Lia.
From stdpp Require Import base option list gmap strings pretty.

Set Warnings "-register-all,-clear-no-such-hyp".

Local Open Scope string_scope.
Local Open Scope list_scope.
Local Open Scope Z_scope.

(** ** Python values *)

Inductive pyval : Type :=
| PNone
| PBool (b : bool)
| PInt (z : Z)
| PFloat (q : Q)
| PStr (s : string)
| PList (l : list pyval)
| PDict (d : gmap string pyval).


(** ** Validation errors

    [error_type] lists the pydantic error types the validators of this file
    can raise; [ErrorDetails] is one line of a [ValidationError]: the type
    and the location, a path of keys and list indices from the validated
    value. *)

Inductive error_type : Type :=
| missing
| model_type
| list_type
| string_type
| string_too_long
| float_type
| float_parsing
| int_type
| int_parsing
| int_from_float
| greater_than
| greater_than_equal
| less_than
| less_than_equal.

Inductive loc_item : Type :=
| Key (k : string)
| Idx (i : nat).

Record ErrorDetails : Type := mkError {
  err_type : error_type;
  err_loc : list loc_item
}.

(** The error taxonomy of the specification. *)
Inductive error_kind : Type :=
| MissingRequiredField
| RangeViolation
| LengthViolation
| TypeMismatch
| StructuralViolation.

Definition kind_of (t : error_type) : error_kind :=
  match t with
  | missing => MissingRequiredField
  | greater_than | greater_than_equal | less_than | less_than_equal => RangeViolation
  | string_too_long => LengthViolation
  | string_type | float_type | float_parsing
  | int_type | int_parsing | int_from_float => TypeMismatch
  | model_type | list_type => StructuralViolation
  end.

Definition err_kind (e : ErrorDetails) : error_kind := kind_of (err_type e).

(** The location as pydantic prints it: the items joined by dots. *)
Definition loc_item_to_string (i : loc_item) : string :=
  match i with
  | Key k => k
  | Idx n => pretty n
  end.

Fixpoint loc_to_string (l : list loc_item) : string :=
  match l with
  | [] => EmptyString
  | [i] => loc_item_to_string i
  | i :: l' => loc_item_to_string i +:+ "." +:+ loc_to_string l'
  end.

(** ** The result of a validation: a value, or a [ValidationError] carrying
    all the line errors found. *)

Inductive result (A : Type) : Type :=
| Ok (a : A)
| ValidationError (errors : list ErrorDetails).
Arguments Ok {A} a.
Arguments ValidationError {A} errors.

Definition is_ok {A} (r : result A) : bool :=
  match r with Ok _ => true | ValidationError _ => false end.

Definition errors_of {A} (r : result A) : list ErrorDetails :=
  match r with Ok _ => [] | ValidationError es => es end.

Definition result_map {A B} (f : A → B) (r : result A) : result B :=
  match r with
  | Ok a => Ok (f a)
  | ValidationError es => ValidationError es
  end.

(** Fields are validated one after the other and the errors of all of them
    are collected, in the order of the fields. *)
Definition result_ap {A B} (rf : result (A → B)) (ra : result A) : result B :=
  match rf, ra with
  | Ok f, Ok a => Ok (f a)
  | Ok _, ValidationError es => ValidationError es
  | ValidationError es, Ok _ => ValidationError es
  | ValidationError es1, ValidationError es2 => ValidationError (es1 ++ es2)
  end.

Infix "<$$>" := result_map (at level 61, left associativity).
Infix "<**>" := result_ap (at level 61, left associativity).

Definition fail {A} (t : error_type) : result A :=
  ValidationError [mkError t []].

(** An error found under key or index [i] has [i] put in front of its
    location. *)
Definition outer_loc (i : loc_item) (e : ErrorDetails) : ErrorDetails :=
  mkError (err_type e) (i :: err_loc e).

Definition at_loc {A} (i : loc_item) (r : result A) : result A :=
  match r with
  | Ok a => Ok a
  | ValidationError es => ValidationError (outer_loc i <$> es)
  end.

(** ** Field constraints: [Field(ge=..., gt=..., le=..., lt=...)] *)

Record bounds : Type := mkBounds {
  ge : option Z;
  gt : option Z;
  le : option Z;
  lt : option Z
}.

Definition no_bounds : bounds := mkBounds None None None None.

Definition or_else {A} (x y : option A) : option A :=
  match x with Some _ => x | None => y end.
Infix "|||" := or_else (at level 50, left associativity).

(** The checks run in the order le, lt, ge, gt and stop at the first one
    that fails. *)
Definition check_bounds_Z (b : bounds) (x : Z) : option error_type :=
  match le b with
  | Some c => if c <? x then Some less_than_equal else None
  | None => None
  end |||
  match lt b with
  | Some c => if c <=? x then Some less_than else None
  | None => None
  end |||
  match ge b with
  | Some c => if x <? c then Some greater_than_equal else None
  | None => None
  end |||
  match gt b with
  | Some c => if x <=? c then Some greater_than else None
  | None => None
  end.

Definition Qlt_bool (x y : Q) : bool := negb (Qle_bool y x).

Definition check_bounds_Q (b : bounds) (x : Q) : option error_type :=
  match le b with
  | Some c => if Qlt_bool (inject_Z c) x then Some less_than_equal else None
  | None => None
  end |||
  match lt b with
  | Some c => if Qle_bool (inject_Z c) x then Some less_than else None
  | None => None
  end |||
  match ge b with
  | Some c => if Qlt_bool x (inject_Z c) then Some greater_than_equal else None
  | None => None
  end |||
  match gt b with
  | Some c => if Qle_bool x (inject_Z c) then Some greater_than else None
  | None => None
  end.

(** ** Reading numbers from strings (lax mode)

    In lax mode a string is accepted where a number is declared when it
    spells one.  The string is trimmed; a float is an optional sign, digits
    with an optional fractional part (at least one digit in all) and an
    optional decimal exponent; an int is an optional sign, digits, and
    possibly a fractional part made of zeros only. *)

Definition is_space (c : ascii) : bool :=
  let n := nat_of_ascii c in
  (n =? 32)%nat || ((9 <=? n)%nat && (n <=? 13)%nat).

Definition digit_of (c : ascii) : option Z :=
  let n := Z.of_nat (nat_of_ascii c) in
  if (48 <=? n) && (n <=? 57) then Some (n - 48) else None.

Fixpoint drop_spaces (s : list ascii) : list ascii :=
  match s with
  | c :: s' => if is_space c then drop_spaces s' else s
  | [] => []
  end.

Definition trim (s : list ascii) : list ascii :=
  rev (drop_spaces (rev (drop_spaces s))).

(** [read_digits s acc n]: the longest prefix of digits of [s], read in
    base ten after the [n] digits already accumulated in [acc]; returns the
    value, the number of digits, and the rest of the string. *)
Fixpoint read_digits (s : list ascii) (acc : Z) (n : nat) : Z * nat * list ascii :=
  match s with
  | c :: s' =>
      match digit_of c with
      | Some d => read_digits s' (10 * acc + d) (S n)
      | None => (acc, n, s)
      end
  | [] => (acc, n, [])
  end.

Definition read_sign (s : list ascii) : bool * list ascii :=
  match s with
  | "-"%char :: s' => (true, s')
  | "+"%char :: s' => (false, s')
  | _ => (false, s)
  end.

(** The value [m * 10^e] as a rational. *)
Definition scale10 (m e : Z) : Q :=
  if 0 <=? e then inject_Z (m * 10 ^ e) else Qmake m (Z.to_pos (10 ^ (- e))).

Definition read_exponent (s : list ascii) : option Z :=
  match s with
  | [] => Some 0
  | c :: s' =>
      if (Ascii.eqb c "e" || Ascii.eqb c "E")%bool then
        let '(neg, s1) := read_sign s' in
        match read_digits s1 0 0 with
        | (_, O, _) => None
        | (e, _, []) => Some (if neg then - e else e)
        | _ => None
        end
      else None
  end.

Definition str_as_float (s : string) : option Q :=
  let '(neg, s0) := read_sign (trim (list_ascii_of_string s)) in
  let '(m1, n1, s1) := read_digits s0 0 0 in
  let '(m, n, n2, s2) :=
    match s1 with
    | "."%char :: s1' =>
        let '(m2, n12, s2) := read_digits s1' m1 n1 in (m2, n12, (n12 - n1)%nat, s2)
    | _ => (m1, n1, O, s1)
    end in
  match n with
  | O => None
  | _ =>
      match read_exponent s2 with
      | Some e => Some (scale10 (if neg then - m else m) (e - Z.of_nat n2))
      | None => None
      end
  end.

Definition all_zeros (s : list ascii) : bool :=
  forallb (λ c, Ascii.eqb c "0") s.

Definition str_as_int (s : string) : option Z :=
  let '(neg, s0) := read_sign (trim (list_ascii_of_string s)) in
  match read_digits s0 0 0 with
  | (_, O, _) => None
  | (m, _, rest) =>
      let ok :=
        match rest with
        | [] => true
        | "."%char :: zs => all_zeros zs
        | _ => false
        end in
      if ok then Some (if neg then - m else m) else None
  end.

(** ** The validators of the annotated types *)

(** [float] with bounds.  An [int] is converted, a [bool] counts as 0 or 1
    and a string is parsed; anything else is not a number. *)
Definition float_value (v : pyval) : result Q :=
  match v with
  | PFloat q => Ok q
  | PInt z => Ok (inject_Z z)
  | PBool b => Ok (inject_Z (if b then 1 else 0))
  | PStr s =>
      match str_as_float s with
      | Some q => Ok q
      | None => fail float_parsing
      end
  | _ => fail float_type
  end.

Definition float_schema (b : bounds) (v : pyval) : result Q :=
  match float_value v with
  | Ok q =>
      match check_bounds_Q b q with
      | Some t => fail t
      | None => Ok q
      end
  | ValidationError es => ValidationError es
  end.

(** [int] with bounds.  A [float] is accepted when it has no fractional
    part, a [bool] counts as 0 or 1 and a string is parsed. *)
Definition int_value (v : pyval) : result Z :=
  match v with
  | PInt z => Ok z
  | PBool b => Ok (if b then 1 else 0)
  | PFloat q =>
      if Qeq_bool (inject_Z (Qfloor q)) q then Ok (Qfloor q) else fail int_from_float
  | PStr s =>
      match str_as_int s with
      | Some z => Ok z
      | None => fail int_parsing
      end
  | _ => fail int_type
  end.

Definition int_schema (b : bounds) (v : pyval) : result Z :=
  match int_value v with
  | Ok z =>
      match check_bounds_Z b z with
      | Some t => fail t
      | None => Ok z
      end
  | ValidationError es => ValidationError es
  end.

(** [str]: only a string is one (numbers are not converted). *)
Definition str_schema (v : pyval) : result string :=
  match v with
  | PStr s => Ok s
  | _ => fail string_type
  end.

(** [list[T]]: every item is validated, under its index. *)
Fixpoint list_items {A} (item : pyval → result A) (i : nat) (l : list pyval)
  : result (list A) :=
  match l with
  | [] => Ok []
  | v :: l' => cons <$$> at_loc (Idx i) (item v) <**> list_items item (S i) l'
  end.

Definition list_schema {A} (item : pyval → result A) (v : pyval) : result (list A) :=
  match v with
  | PList l => list_items item 0 l
  | _ => fail list_type
  end.

(** [Optional[T]]: [None] is a value of the type. *)
Definition nullable_schema {A} (inner : pyval → result A) (v : pyval) : result (option A) :=
  match v with
  | PNone => Ok None
  | _ => Some <$$> inner v
  end.

(** ** Model fields

    A model is validated from a dictionary (anything else is a
    [model_type] error); each field is looked up under its alias, keys that
    name no field are ignored.  A field without default is required; a
    field declared with [default=None] is [None] when its key is absent,
    and validated against its type when the key is present. *)

Definition model_schema {A} (fields : gmap string pyval → result A) (v : pyval) : result A :=
  match v with
  | PDict d => fields d
  | _ => fail model_type
  end.

Definition required {A} (d : gmap string pyval) (alias : string)
    (schema : pyval → result A) : result A :=
  match d !! alias with
  | Some v => at_loc (Key alias) (schema v)
  | None => ValidationError [mkError missing [Key alias]]
  end.

Definition with_default_None {A} (d : gmap string pyval) (alias : string)
    (schema : pyval → result A) : result (option A) :=
  match d !! alias with
  | Some v => Some <$$> at_loc (Key alias) (schema v)
  | None => Ok None
  end.

(** ** Dumps

    [unit_config.py] defines no serializer of its own: the classes inherit
    [model_dump] from pydantic's [BaseModel], and the form it gives depends
    on options of the call.  The dump modelled here is the wire form the
    specification describes: keys are the wire names ([by_alias]) and a
    field that is [None] is left out ([exclude_none]), absence being the
    wire form of "not configured". *)

(** Modelled from the spec: how the serializer, which the sources inherit
    and do not configure, writes a field: under its wire name. *)
Definition dump_field (alias : string) (v : pyval) (d : gmap string pyval)
  : gmap string pyval := <[alias := v]> d.

(** Modelled from the spec: how the serializer writes a field declared with
    [default=None]: under its wire name when set, not at all when [None]. *)
Definition dump_optional {A} (alias : string) (dump : A → pyval) (x : option A)
    (d : gmap string pyval) : gmap string pyval :=
  match x with
  | Some a => <[alias := dump a]> d
  | None => d
  end.

(** ** The threshold rules *)

Module AlertRulePercents.

Record t : Type := mk {
    min_threshold : Q;
    max_threshold : Q;
    min_timeout : Q
  }.

Definition fields (d : gmap string pyval) : result t :=
    mk <$$> required d "minThreshold"
              (float_schema {| ge := Some 0; le := Some 100; gt := None; lt := None |})
       <**> required d "maxThreshold"
              (float_schema {| ge := Some 0; le := Some 100; gt := None; lt := None |})
       <**> required d "minTimeout"
              (float_schema {| gt := Some 0; ge := None; le := None; lt := None |}).

Definition model_validate : pyval → result t := model_schema fields.

(** Modelled from the spec: the wire form of an instance, as the serializer
    inherited from pydantic gives it by alias, unset fields left out. *)
Definition model_dump (x : t) : pyval :=
    PDict (dump_field "minThreshold" (PFloat (min_threshold x))
          (dump_field "maxThreshold" (PFloat (max_threshold x))
          (dump_field "minTimeout" (PFloat (min_timeout x)) ∅))).

End AlertRulePercents.

(** The subclass has the fields of [AlertRulePercents], then its own. *)
Module AlertRulePercentsOfDisk.

Record t : Type := mk {
    min_threshold : Q;
    max_threshold : Q;
    min_timeout : Q;
    name : string
  }.

Definition fields (d : gmap string pyval) : result t :=
    mk <$$> required d "minThreshold"
              (float_schema {| ge := Some 0; le := Some 100; gt := None; lt := None |})
       <**> required d "maxThreshold"
              (float_schema {| ge := Some 0; le := Some 100; gt := None; lt := None |})
       <**> required d "minTimeout"
              (float_schema {| gt := Some 0; ge := None; le := None; lt := None |})
       <**> required d "name" str_schema.

Definition model_validate : pyval → result t := model_schema fields.

(** Modelled from the spec: the wire form of an instance, as the serializer
    inherited from pydantic gives it by alias, unset fields left out. *)
Definition model_dump (x : t) : pyval :=
    PDict (dump_field "minThreshold" (PFloat (min_threshold x))
          (dump_field "maxThreshold" (PFloat (max_threshold x))
          (dump_field "minTimeout" (PFloat (min_timeout x))
          (dump_field "name" (PStr (name x)) ∅)))).

End AlertRulePercentsOfDisk.

Module AlertRulePoints.

Record t : Type := mk {
    min_threshold : Z;
    max_threshold : Z;
    min_timeout : Q
  }.

Definition fields (d : gmap string pyval) : result t :=
    mk <$$> required d "minThreshold"
              (int_schema {| ge := Some 0; gt := None; le := None; lt := None |})
       <**> required d "maxThreshold"
              (int_schema {| ge := Some 0; gt := None; le := None; lt := None |})
       <**> required d "minTimeout"
              (float_schema {| gt := Some 0; ge := None; le := None; lt := None |}).

Definition model_validate : pyval → result t := model_schema fields.

(** Modelled from the spec: the wire form of an instance, as the serializer
    inherited from pydantic gives it by alias, unset fields left out. *)
Definition model_dump (x : t) : pyval :=
    PDict (dump_field "minThreshold" (PInt (min_threshold x))
          (dump_field "maxThreshold" (PInt (max_threshold x))
          (dump_field "minTimeout" (PFloat (min_timeout x)) ∅))).

End AlertRulePoints.

(** ** The resource ratios: four floats, each [None] by default, without
    bounds. *)

Module ResourceRatiosInfo.

Record t : Type := mk {
    cpu : option Q;
    ram : option Q;
    storage : option Q;
    state : option Q
  }.

Definition fields (d : gmap string pyval) : result t :=
    mk <$$> with_default_None d "cpu" (float_schema no_bounds)
       <**> with_default_None d "ram" (float_schema no_bounds)
       <**> with_default_None d "storage" (float_schema no_bounds)
       <**> with_default_None d "state" (float_schema no_bounds).

Definition model_validate : pyval → result t := model_schema fields.

(** Modelled from the spec: the wire form of an instance, as the serializer
    inherited from pydantic gives it by alias, unset fields left out. *)
Definition model_dump (x : t) : pyval :=
    PDict (dump_optional "cpu" PFloat (cpu x)
          (dump_optional "ram" PFloat (ram x)
          (dump_optional "storage" PFloat (storage x)
          (dump_optional "state" PFloat (state x) ∅)))).

End ResourceRatiosInfo.

(** ** The alert rules of a node.  [partitions] alone is declared
    [Optional]: there an explicit [None] is a value. *)

Module AlertRules.

Record t : Type := mk {
    cpu : option AlertRulePercents.t;
    ram : option AlertRulePercents.t;
    partitions : option (list AlertRulePercentsOfDisk.t);
    download : option AlertRulePoints.t;
    upload : option AlertRulePoints.t
  }.

Definition fields (d : gmap string pyval) : result t :=
    mk <$$> with_default_None d "cpu" AlertRulePercents.model_validate
       <**> with_default_None d "ram" AlertRulePercents.model_validate
       <**> (mjoin <$$> with_default_None d "partitions"
               (nullable_schema (list_schema AlertRulePercentsOfDisk.model_validate)))
       <**> with_default_None d "download" AlertRulePoints.model_validate
       <**> with_default_None d "upload" AlertRulePoints.model_validate.

Definition model_validate : pyval → result t := model_schema fields.

(** Modelled from the spec: the wire form of an instance, as the serializer
    inherited from pydantic gives it by alias, unset fields left out. *)
Definition model_dump (x : t) : pyval :=
    PDict (dump_optional "cpu" AlertRulePercents.model_dump (cpu x)
          (dump_optional "ram" AlertRulePercents.model_dump (ram x)
          (dump_optional "partitions"
             (λ l, PList (AlertRulePercentsOfDisk.model_dump <$> l)) (partitions x)
          (dump_optional "download" AlertRulePoints.model_dump (download x)
          (dump_optional "upload" AlertRulePoints.model_dump (upload x) ∅))))).

End AlertRules.

(** ** What [unit_config.py] imports

    [common.py] and [types.py] of the package are not part of the sources at
    hand.  A declaration imported from them is a [Schema]: the type of its
    validated values, its validator and its dump. *)

Record Schema : Type := mkSchema {
  carrier : Type;
  validate : pyval → result carrier;
  dump : carrier → pyval
}.

Record Imports : Type := mkImports {
  AosDeviceInfo : Schema;
  AosFileSystemMount : Schema;
  AosHostRecord : Schema;
  TypeNodeIdOptional : Schema;
  TypeNodeTypeMandatory : Schema;
  TypeVersionMandatory : Schema
}.

(** Modelled from the spec: the field declarations carried by the annotated
    types [TypeNodeTypeMandatory], [TypeNodeIdOptional] and
    [TypeVersionMandatory] of [cloud_common.protocols.unit.types], which the
    sources do not hold.  The specification gives the wire names in
    lowerCamelCase ([node_type] is [nodeType] on the wire), [node_type] and
    [version] as mandatory and [node_id] as optional; the type behind each
    name is left to the [Schema]. *)
Definition node_type_field (imp : Imports) (d : gmap string pyval)
  : result (carrier (TypeNodeTypeMandatory imp)) :=
  required d "nodeType" (validate (TypeNodeTypeMandatory imp)).

Definition node_id_field (imp : Imports) (d : gmap string pyval)
  : result (option (carrier (TypeNodeIdOptional imp))) :=
  with_default_None d "nodeId" (validate (TypeNodeIdOptional imp)).

Definition version_field (imp : Imports) (d : gmap string pyval)
  : result (carrier (TypeVersionMandatory imp)) :=
  required d "version" (validate (TypeVersionMandatory imp)).

(** ** Resources *)

Module ResourceInfo.
Section WithImports.
Variable imp : Imports.

Record t : Type := mk {
    name : string;
    groups : option (list string);
    mounts : option (list (carrier (AosFileSystemMount imp)));
    envs : option (list string);
    hosts : option (list (carrier (AosHostRecord imp)))
  }.

Definition fields (d : gmap string pyval) : result t :=
    mk <$$> required d "name" str_schema
       <**> with_default_None d "groups" (list_schema str_schema)
       <**> with_default_None d "mounts" (list_schema (validate (AosFileSystemMount imp)))
       <**> with_default_None d "envs" (list_schema str_schema)
       <**> with_default_None d "hosts" (list_schema (validate (AosHostRecord imp))).

Definition model_validate : pyval → result t := model_schema fields.

(** Modelled from the spec: the wire form of an instance, as the serializer
    inherited from pydantic gives it by alias, unset fields left out. *)
Definition model_dump (x : t) : pyval :=
    PDict (dump_field "name" (PStr (name x))
          (dump_optional "groups" (λ l, PList (PStr <$> l)) (groups x)
          (dump_optional "mounts" (λ l, PList (dump (AosFileSystemMount imp) <$> l)) (mounts x)
          (dump_optional "envs" (λ l, PList (PStr <$> l)) (envs x)
          (dump_optional "hosts" (λ l, PList (dump (AosHostRecord imp) <$> l)) (hosts x) ∅))))).

End WithImports.
Arguments mk {imp}.
Arguments name {imp}.
Arguments groups {imp}.
Arguments mounts {imp}.
Arguments envs {imp}.
Arguments hosts {imp}.
End ResourceInfo.

(** ** The configuration of a node *)

Module NodeConfig.
Section WithImports.
Variable imp : Imports.

Record t : Type := mk {
    node_type : carrier (TypeNodeTypeMandatory imp);
    node_id : option (carrier (TypeNodeIdOptional imp));
    alert_rules : option AlertRules.t;
    resource_ratios : option ResourceRatiosInfo.t;
    devices : option (list (carrier (AosDeviceInfo imp)));
    resources : option (list (ResourceInfo.t imp));
    labels : option (list string);
    priority : Z
  }.

Definition fields (d : gmap string pyval) : result t :=
    mk <$$> node_type_field imp d
       <**> node_id_field imp d
       <**> with_default_None d "alertRules" AlertRules.model_validate
       <**> with_default_None d "resourceRatios" ResourceRatiosInfo.model_validate
       <**> with_default_None d "devices" (list_schema (validate (AosDeviceInfo imp)))
       <**> with_default_None d "resources" (list_schema (ResourceInfo.model_validate imp))
       <**> with_default_None d "labels" (list_schema str_schema)
       <**> required d "priority"
              (int_schema {| ge := Some 0; lt := Some (2 ^ 32 - 1); gt := None; le := None |}).

Definition model_validate : pyval → result t := model_schema fields.

(** Modelled from the spec: the wire form of an instance, as the serializer
    inherited from pydantic gives it by alias, unset fields left out. *)
Definition model_dump (x : t) : pyval :=
    PDict (dump_field "nodeType" (dump (TypeNodeTypeMandatory imp) (node_type x))
          (dump_optional "nodeId" (dump (TypeNodeIdOptional imp)) (node_id x)
          (dump_optional "alertRules" AlertRules.model_dump (alert_rules x)
          (dump_optional "resourceRatios" ResourceRatiosInfo.model_dump (resource_ratios x)
          (dump_optional "devices" (λ l, PList (dump (AosDeviceInfo imp) <$> l)) (devices x)
          (dump_optional "resources" (λ l, PList (ResourceInfo.model_dump imp <$> l)) (resources x)
          (dump_optional "labels" (λ l, PList (PStr <$> l)) (labels x)
          (dump_field "priority" (PInt (priority x)) ∅)))))))).

End WithImports.
Arguments mk {imp}.
Arguments node_type {imp}.
Arguments node_id {imp}.
Arguments alert_rules {imp}.
Arguments resource_ratios {imp}.
Arguments devices {imp}.
Arguments resources {imp}.
Arguments labels {imp}.
Arguments priority {imp}.
End NodeConfig.

(** ** The configuration of a unit *)

(** [str | int]: the union is tried on the exact type first, so that a
    string stays a string and an integer an integer; another value goes
    through the lax conversions, of which only the one to [int] can take a
    value that is neither.  When no member accepts the value, each reports
    its error under its own tag. *)
Inductive str_or_int : Type :=
| Str (s : string)
| Int (z : Z).

Definition str_or_int_schema (v : pyval) : result str_or_int :=
  match v with
  | PStr s => Ok (Str s)
  | PInt z => Ok (Int z)
  | _ =>
      match int_value v with
      | Ok z => Ok (Int z)
      | ValidationError es =>
          ValidationError (mkError string_type [Key "str"] :: (outer_loc (Key "int") <$> es))
      end
  end.

(** Modelled from the spec: the format version is written in the
    representation it has. *)
Definition str_or_int_dump (x : str_or_int) : pyval :=
  match x with
  | Str s => PStr s
  | Int z => PInt z
  end.

Module UnitConfig.
Section WithImports.
Variable imp : Imports.

Record t : Type := mk {
    format_version : str_or_int;
    version : carrier (TypeVersionMandatory imp);
    nodes : list (NodeConfig.t imp)
  }.

Definition fields (d : gmap string pyval) : result t :=
    mk <$$> required d "formatVersion" str_or_int_schema
       <**> version_field imp d
       <**> required d "nodes" (list_schema (NodeConfig.model_validate imp)).

Definition model_validate : pyval → result t := model_schema fields.

(** Modelled from the spec: the wire form of an instance, as the serializer
    inherited from pydantic gives it by alias, unset fields left out. *)
Definition model_dump (x : t) : pyval :=
    PDict (dump_field "formatVersion" (str_or_int_dump (format_version x))
          (dump_field "version" (dump (TypeVersionMandatory imp) (version x))
          (dump_field "nodes" (PList (NodeConfig.model_dump imp <$> nodes x)) ∅))).

End WithImports.
Arguments mk {imp}.
Arguments format_version {imp}.
Arguments version {imp}.
Arguments nodes {imp}.
End UnitConfig.

(** ** An instance of the imports and some documents

    [plain_imports] takes every imported declaration to be a plain string;
    it serves to run the validators on concrete documents. *)

Definition str_type : Schema := mkSchema string str_schema PStr.

Definition plain_imports : Imports :=
  mkImports str_type str_type str_type str_type str_type str_type.

Definition threshold_doc (vmin vmax vtimeout : pyval) : gmap string pyval :=
  <["minThreshold" := vmin]> (<["maxThreshold" := vmax]> (<["minTimeout" := vtimeout]> ∅)).

(** [{"nodeType":"main","priority":5,"alertRules":{"cpu":{"minThreshold":10,
    "maxThreshold":vmax,"minTimeout":30}}}] *)
Definition node_doc (vmax : pyval) : gmap string pyval :=
  <["nodeType" := PStr "main"]> (<["priority" := PInt 5]>
  (<["alertRules" := PDict (<["cpu" := PDict (threshold_doc (PInt 10) vmax (PInt 30))]> ∅)]> ∅)).

(** The bounds of a percentage and of a timeout, as the threshold rules
    declare them. *)
Definition percent_bounds : bounds := {| ge := Some 0; le := Some 100; gt := None; lt := None |}.
Definition positive_bounds : bounds := {| gt := Some 0; ge := None; le := None; lt := None |}.


Definition priority_bounds : bounds :=
  {| ge := Some 0; lt := Some (2 ^ 32 - 1); gt := None; le := None |}.


(** [{"formatVersion": fv, "version": "1.0.0",
      "nodes": [<node_doc 80>, {"nodeType": "secondary", "priority": 0}]}] *)
Definition unit_doc (fv : pyval) : gmap string pyval :=
  <["formatVersion" := fv]> (<["version" := PStr "1.0.0"]>
  (<["nodes" := PList [PDict (node_doc (PInt 80));
                       PDict (<["nodeType" := PStr "secondary"]>
                              (<["priority" := PInt 0]> ∅))]]> ∅)).

(** The rule [{"minThreshold": 10, "maxThreshold": 80, "minTimeout": 30}] of
    a partition named by the empty string. *)
Definition unnamed_disk_doc : gmap string pyval :=
  <["name" := PStr EmptyString]> (threshold_doc (PInt 10) (PInt 80) (PInt 30)).


(** Neither a number nor something the lax mode reads as one. *)
Definition not_numeric (v : pyval) : Prop :=
  v = PNone ∨ (∃ l, v = PList l) ∨ (∃ m, v = PDict m).





(** The errors of the value [v] given for the rule [k] of an alert rules
    object, as the validator of that rule finds them. *)
Definition alert_rule_errors (k : string) (v : pyval) : list ErrorDetails :=
  if bool_decide (k ∈ ["cpu"; "ram"]) then
    errors_of (AlertRulePercents.model_validate v)
  else if bool_decide (k = "partitions") then
    errors_of (nullable_schema (list_schema AlertRulePercentsOfDisk.model_validate) v)
  else if bool_decide (k ∈ ["download"; "upload"]) then
    errors_of (AlertRulePoints.model_validate v)
  else [].

(** ** Round trips

    A schema round-trips with a dump when what it accepts is, once dumped,
    accepted again as the same value. *)
Definition round_trips {A} (schema : pyval → result A) (dump : A → pyval) : Prop :=
  ∀ v x, schema v = Ok x → schema (dump x) = Ok x.

Definition imports_round_trip (imp : Imports) : Prop :=
  round_trips (validate (AosDeviceInfo imp)) (dump (AosDeviceInfo imp))
  ∧ round_trips (validate (AosFileSystemMount imp)) (dump (AosFileSystemMount imp))
  ∧ round_trips (validate (AosHostRecord imp)) (dump (AosHostRecord imp))
  ∧ round_trips (validate (TypeNodeIdOptional imp)) (dump (TypeNodeIdOptional imp))
  ∧ round_trips (validate (TypeNodeTypeMandatory imp)) (dump (TypeNodeTypeMandatory imp))
  ∧ round_trips (validate (TypeVersionMandatory imp)) (dump (TypeVersionMandatory imp)).

(** ** Documents that agree, instances within bounds

    [agree_on ks d d']: the documents [d] and [d'] hold the same value, or
    both nothing, under every key of [ks]. *)
Definition agree_on (ks : list string) (d d' : gmap string pyval) : Prop :=
  ∀ k, k ∈ ks → d !! k = d' !! k.







(** A result explains itself when, being a rejection, it carries an error. *)
Definition explained {A} (r : result A) : Prop :=
  is_ok r = false → errors_of r ≠ [].

(** The errors reported for the rule [k] of the alert rules document [d]. *)
Definition alert_rule_slot_errors (d : gmap string pyval) (k : string)
  : list ErrorDetails :=
  match d !! k with
  | Some v => outer_loc (Key k) <$> alert_rule_errors k v
  | None => []
  end.

(** The imported declarations explain their rejections. *)
Definition imports_explained (imp : Imports) : Prop :=
  (∀ v, explained (validate (AosDeviceInfo imp) v))
  ∧ (∀ v, explained (validate (AosFileSystemMount imp) v))
  ∧ (∀ v, explained (validate (AosHostRecord imp) v))
  ∧ (∀ v, explained (validate (TypeNodeIdOptional imp) v))
  ∧ (∀ v, explained (validate (TypeNodeTypeMandatory imp) v))
  ∧ (∀ v, explained (validate (TypeVersionMandatory imp) v)).

(** * Properties *)

(** ** Results *)

Section Results.
Context {A B : Type}.
Implicit Types (r : result A) (f : A → B) (rf : result (A → B)).

Lemma is_ok_true r : is_ok r = true ↔ ∃ a, r = Ok a.
Proof. destruct r; simpl; split; eauto; try discriminate. by intros [? ?]. Qed.

Lemma is_ok_false r : is_ok r = false ↔ r = ValidationError (errors_of r).
Proof. destruct r; simpl; split; congruence. Qed.

Lemma errors_of_Ok r a : r = Ok a → errors_of r = [].
Proof. by intros ->. Qed.

Lemma is_ok_map f r : is_ok (f <$$> r) = is_ok r.
Proof. by destruct r. Qed.

Lemma errors_of_map f r : errors_of (f <$$> r) = errors_of r.
Proof. by destruct r. Qed.

Lemma is_ok_ap rf r : is_ok (rf <**> r) = is_ok rf && is_ok r.
Proof. by destruct rf, r. Qed.

Lemma errors_of_ap rf r : errors_of (rf <**> r) = errors_of rf ++ errors_of r.
Proof. destruct rf, r; simpl; by rewrite ?app_nil_r. Qed.

Lemma is_ok_at_loc i r : is_ok (at_loc i r) = is_ok r.
Proof. by destruct r. Qed.

Lemma errors_of_at_loc i r : errors_of (at_loc i r) = outer_loc i <$> errors_of r.
Proof. by destruct r. Qed.

Lemma at_loc_Ok i r a : at_loc i r = Ok a ↔ r = Ok a.
Proof. destruct r; simpl; split; congruence. Qed.

Lemma map_Ok_inv f r b : f <$$> r = Ok b → ∃ a, r = Ok a ∧ b = f a.
Proof. destruct r; simpl; [|discriminate]. intros [= <-]. eauto. Qed.

Lemma ap_Ok_inv rf r b : rf <**> r = Ok b → ∃ g a, rf = Ok g ∧ r = Ok a ∧ b = g a.
Proof. destruct rf, r; simpl; try discriminate. intros [= <-]. eauto. Qed.
End Results.

Lemma errors_not_ok {A} (r : result A) e : e ∈ errors_of r → is_ok r = false.
Proof. destruct r; simpl; [by intros ?%elem_of_nil | done]. Qed.

Ltac result_simpl :=
  repeat first
    [ rewrite is_ok_map | rewrite is_ok_ap | rewrite is_ok_at_loc
    | rewrite errors_of_map | rewrite errors_of_ap | rewrite errors_of_at_loc ].

(** ** Fields *)

Section Fields.
Context {A : Type}.
Implicit Types (d : gmap string pyval) (schema : pyval → result A).

Lemma required_present d k schema v :
    d !! k = Some v → required d k schema = at_loc (Key k) (schema v).
Proof. unfold required. by intros ->. Qed.

Lemma required_absent d k schema :
    d !! k = None → required d k schema = ValidationError [mkError missing [Key k]].
Proof. unfold required. by intros ->. Qed.

Lemma required_Ok_inv d k schema a :
    required d k schema = Ok a → ∃ v, d !! k = Some v ∧ schema v = Ok a.
Proof.
    unfold required. destruct (d !! k) as [v|]; [|discriminate].
    rewrite at_loc_Ok. eauto.
Qed.

Lemma with_default_None_present d k schema v :
    d !! k = Some v → with_default_None d k schema = Some <$$> at_loc (Key k) (schema v).
Proof. unfold with_default_None. by intros ->. Qed.

Lemma with_default_None_absent d k schema :
    d !! k = None → with_default_None d k schema = Ok None.
Proof. unfold with_default_None. by intros ->. Qed.

Lemma with_default_None_Ok_inv d k schema o :
    with_default_None d k schema = Ok o →
    match o with
    | Some a => ∃ v, d !! k = Some v ∧ schema v = Ok a
    | None => d !! k = None
    end.
Proof.
    unfold with_default_None. destruct (d !! k) as [v|].
    - intros (a & Ha%at_loc_Ok & ->)%map_Ok_inv. eauto.
    - by intros [= <-].
Qed.
End Fields.

(** ** Bounds *)




(** Whatever the bounds, a failed check is a range violation. *)
Lemma check_bounds_Q_kind b q t :
  check_bounds_Q b q = Some t → kind_of t = RangeViolation.
Proof.
  destruct b as [[?|] [?|] [?|] [?|]]; unfold check_bounds_Q, or_else; simpl;
    repeat case_match; intros; simplify_eq; done.
Qed.

Lemma check_bounds_Z_kind b z t :
  check_bounds_Z b z = Some t → kind_of t = RangeViolation.
Proof.
  destruct b as [[?|] [?|] [?|] [?|]]; unfold check_bounds_Z, or_else; simpl;
    repeat case_match; intros; simplify_eq; done.
Qed.



(** ** Numbers in float fields *)








(** ** What an accepted number satisfies *)

Lemma float_schema_Ok_inv b v q :
  float_schema b v = Ok q → float_value v = Ok q ∧ check_bounds_Q b q = None.
Proof.
  unfold float_schema. destruct (float_value v) as [q'|]; [|done].
  destruct (check_bounds_Q b q') eqn:Hb; [done|]. by intros [= <-].
Qed.

Lemma int_schema_Ok_inv b v z :
  int_schema b v = Ok z → int_value v = Ok z ∧ check_bounds_Z b z = None.
Proof.
  unfold int_schema. destruct (int_value v) as [z'|]; [|done].
  destruct (check_bounds_Z b z') eqn:Hb; [done|]. by intros [= <-].
Qed.

Lemma model_schema_Ok_inv {A} (fields : gmap string pyval → result A) v a :
  model_schema fields v = Ok a → ∃ d, v = PDict d ∧ fields d = Ok a.
Proof. destruct v; simpl; try done. eauto. Qed.

(** Takes a hypothesis [mk <$$> r1 <**> ... <**> rn = Ok x] apart into
    [r1 = Ok _], ..., [rn = Ok _]. *)
Ltac fields_inv H :=
  repeat
    (let g := fresh "g" in
     let a := fresh "a" in
     let Ha := fresh "Hfield" in
     apply ap_Ok_inv in H as (g & a & H & Ha & ->));
  let a := fresh "a" in
  let Ha := fresh "Hfield" in
  apply map_Ok_inv in H as (a & Ha & ->).

(** ** AlertRulePercents *)

Lemma percent_fields_errors d :
  errors_of (AlertRulePercents.model_validate (PDict d)) =
    errors_of (required d "minThreshold" (float_schema percent_bounds)) ++
    errors_of (required d "maxThreshold" (float_schema percent_bounds)) ++
    errors_of (required d "minTimeout" (float_schema positive_bounds)).
Proof.
  unfold AlertRulePercents.model_validate, model_schema, AlertRulePercents.fields.
  result_simpl. by rewrite <- app_assoc.
Qed.

Lemma percent_fields_Ok d a b c :
  required d "minThreshold" (float_schema percent_bounds) = Ok a →
  required d "maxThreshold" (float_schema percent_bounds) = Ok b →
  required d "minTimeout" (float_schema positive_bounds) = Ok c →
  AlertRulePercents.model_validate (PDict d) = Ok (AlertRulePercents.mk a b c).
Proof.
  unfold AlertRulePercents.model_validate, model_schema, AlertRulePercents.fields.
  fold percent_bounds positive_bounds. by intros -> -> ->.
Qed.







Lemma percent_Ok_inv v x :
  AlertRulePercents.model_validate v = Ok x →
  ∃ d, v = PDict d
    ∧ required d "minThreshold" (float_schema percent_bounds)
        = Ok (AlertRulePercents.min_threshold x)
    ∧ required d "maxThreshold" (float_schema percent_bounds)
        = Ok (AlertRulePercents.max_threshold x)
    ∧ required d "minTimeout" (float_schema positive_bounds)
        = Ok (AlertRulePercents.min_timeout x).
Proof.
  intros (d & -> & H)%model_schema_Ok_inv. exists d. split; [done|].
  unfold AlertRulePercents.fields in H. fields_inv H. simpl. eauto.
Qed.





(** ** AlertRulePoints *)









(** ** AlertRulePercentsOfDisk *)

Lemma disk_fields_errors d :
  errors_of (AlertRulePercentsOfDisk.model_validate (PDict d)) =
    errors_of (AlertRulePercents.model_validate (PDict d)) ++
    errors_of (required d "name" str_schema).
Proof.
  rewrite percent_fields_errors.
  unfold AlertRulePercentsOfDisk.model_validate, model_schema,
    AlertRulePercentsOfDisk.fields.
  result_simpl. by rewrite <- !app_assoc.
Qed.

Lemma str_schema_not_str v :
  (∀ s, v ≠ PStr s) → str_schema v = fail string_type.
Proof. destruct v; simpl; try done. intros H. by destruct (H s). Qed.

Lemma disk_accepted d x0 s :
  AlertRulePercents.model_validate (PDict d) = Ok x0 →
  d !! "name" = Some (PStr s) →
  AlertRulePercentsOfDisk.model_validate (PDict d)
  = Ok (AlertRulePercentsOfDisk.mk
          (AlertRulePercents.min_threshold x0) (AlertRulePercents.max_threshold x0)
          (AlertRulePercents.min_timeout x0) s).
Proof.
  intros (d' & [= <-] & Ha & Hb & Hc)%percent_Ok_inv Hname.
  unfold AlertRulePercentsOfDisk.model_validate, model_schema,
    AlertRulePercentsOfDisk.fields.
  fold percent_bounds positive_bounds.
  by rewrite Ha, Hb, Hc, (required_present _ _ _ _ Hname).
Qed.

Lemma disk_name_inv v x :
  AlertRulePercentsOfDisk.model_validate v = Ok x →
  ∃ d, v = PDict d ∧ d !! "name" = Some (PStr (AlertRulePercentsOfDisk.name x)).
Proof.
  intros (d & -> & H)%model_schema_Ok_inv. exists d. split; [done|].
  unfold AlertRulePercentsOfDisk.fields in H. fields_inv H. simpl.
  apply required_Ok_inv in Hfield as (v & Hd & Hv).
  destruct v; simpl in Hv; try done. by simplify_eq.
Qed.

(** C2, as the code has it.  The partition name of a PercentThresholdNamed
    ([AlertRulePercentsOfDisk]) is mandatory and has to be a string: a
    document without it is rejected as missing a required field, one whose
    name is not a string is rejected with a type mismatch; any string is
    taken as the name, the empty one included, so that an accepted instance
    has the name its document gave and nothing more is known of it. *)
Theorem disk_threshold_name_mandatory (d : gmap string pyval) :
  let r := AlertRulePercentsOfDisk.model_validate (PDict d) in
  (d !! "name" = None →
     is_ok r = false ∧ mkError missing [Key "name"] ∈ errors_of r
     ∧ kind_of missing = MissingRequiredField)
  ∧ (∀ v, d !! "name" = Some v → (∀ s, v ≠ PStr s) →
       is_ok r = false ∧ mkError string_type [Key "name"] ∈ errors_of r
       ∧ kind_of string_type = TypeMismatch)
  ∧ (∀ s x0,
       d !! "name" = Some (PStr s) →
       AlertRulePercents.model_validate (PDict d) = Ok x0 →
       r = Ok (AlertRulePercentsOfDisk.mk
                 (AlertRulePercents.min_threshold x0)
                 (AlertRulePercents.max_threshold x0)
                 (AlertRulePercents.min_timeout x0) s))
  ∧ (∀ v x,
       AlertRulePercentsOfDisk.model_validate v = Ok x →
       ∃ d', v = PDict d' ∧ d' !! "name" = Some (PStr (AlertRulePercentsOfDisk.name x))).
Proof.
  cbv zeta. split; [|split; [|split]].
  - intros Hd.
    assert (mkError missing [Key "name"]
              ∈ errors_of (AlertRulePercentsOfDisk.model_validate (PDict d))) as Hin.
    { rewrite disk_fields_errors, (required_absent _ _ _ Hd). set_solver. }
    split; [by eapply errors_not_ok | done].
  - intros v Hd Hv.
    assert (mkError string_type [Key "name"]
              ∈ errors_of (AlertRulePercentsOfDisk.model_validate (PDict d))) as Hin.
    { rewrite disk_fields_errors, (required_present _ _ _ _ Hd),
        (str_schema_not_str _ Hv). set_solver. }
    split; [by eapply errors_not_ok | done].
  - intros s x0 Hd Hx0. by apply disk_accepted.
  - apply disk_name_inv.
Qed.

(** An instance of the amended C2: the document with the name ["sda1"]. *)
Lemma disk_threshold_name_mandatory_witness :
  AlertRulePercentsOfDisk.model_validate
    (PDict (<["name" := PStr "sda1"]> (threshold_doc (PInt 10) (PInt 80) (PInt 30))))
  = Ok (AlertRulePercentsOfDisk.mk (inject_Z 10) (inject_Z 80) (inject_Z 30) "sda1").
Proof.
  destruct (disk_threshold_name_mandatory
              (<["name" := PStr "sda1"]> (threshold_doc (PInt 10) (PInt 80) (PInt 30))))
    as (_ & _ & Hstr & _).
  apply (Hstr "sda1" (AlertRulePercents.mk (inject_Z 10) (inject_Z 80) (inject_Z 30)));
    reflexivity.
Defined.

(** C2 as stated fails: the document
    [{"minThreshold": 10, "maxThreshold": 80, "minTimeout": 30}] with the
    empty string for name is accepted, and the instance has the empty name. *)
Lemma disk_threshold_empty_name_accepted :
  ∃ x, AlertRulePercentsOfDisk.model_validate (PDict unnamed_disk_doc) = Ok x
       ∧ AlertRulePercentsOfDisk.name x = EmptyString.
Proof. eexists. split; reflexivity. Qed.

(** ** ResourceRatiosInfo *)





Lemma with_default_None_fail {A} d k (schema : pyval → result A) v t :
  d !! k = Some v → schema v = fail t →
  errors_of (with_default_None d k schema) = [mkError t [Key k]].
Proof. intros Hk Hv. by rewrite (with_default_None_present _ _ _ _ Hk), Hv. Qed.



(** ** Strings in number fields *)















(** ** Documents with one more key *)

Section Insert.
Context {A : Type}.
Implicit Types (d : gmap string pyval) (schema : pyval → result A).

Lemma required_insert_ne d k k' v schema :
  k' ≠ k → required (<[k' := v]> d) k schema = required d k schema.
Proof. intros Hne. unfold required. by rewrite lookup_insert_ne. Qed.

Lemma required_insert_eq d k v schema :
  required (<[k := v]> d) k schema = at_loc (Key k) (schema v).
Proof. unfold required. by rewrite lookup_insert_eq. Qed.

Lemma with_default_None_insert_ne d k k' v schema :
  k' ≠ k → with_default_None (<[k' := v]> d) k schema = with_default_None d k schema.
Proof. intros Hne. unfold with_default_None. by rewrite lookup_insert_ne. Qed.

Lemma with_default_None_insert_eq d k v schema :
  with_default_None (<[k := v]> d) k schema = Some <$$> at_loc (Key k) (schema v).
Proof. unfold with_default_None. by rewrite lookup_insert_eq. Qed.
End Insert.

Ltac insert_simpl :=
  repeat first
    [ rewrite required_insert_eq
    | rewrite with_default_None_insert_eq
    | rewrite required_insert_ne by done
    | rewrite with_default_None_insert_ne by done ].

(** ** NodeConfig *)

Lemma check_priority_bounds z :
  check_bounds_Z priority_bounds z =
    if 2 ^ 32 - 1 <=? z then Some less_than
    else if z <? 0 then Some greater_than_equal else None.
Proof.
  unfold check_bounds_Z, or_else, priority_bounds; cbn [le lt ge gt].
  by destruct (2 ^ 32 - 1 <=? z), (z <? 0).
Qed.

Lemma priority_schema z :
  int_schema priority_bounds (PInt z) =
    if 2 ^ 32 - 1 <=? z then fail less_than
    else if z <? 0 then fail greater_than_equal else Ok z.
Proof.
  unfold int_schema; simpl int_value; cbv iota. rewrite check_priority_bounds.
  by destruct (2 ^ 32 - 1 <=? z), (z <? 0).
Qed.

Section NodeConfig.
Variable imp : Imports.

(** The fields before [priority], which the document decides without its
    priority. *)
Lemma node_fields_with_priority d :
  ∃ others : result (Z → NodeConfig.t imp),
    ∀ v, NodeConfig.model_validate imp (PDict (<["priority" := v]> d))
         = others <**> at_loc (Key "priority") (int_schema priority_bounds v).
Proof.
  eexists. intros v'.
  unfold NodeConfig.model_validate, model_schema, NodeConfig.fields,
    node_type_field, node_id_field.
  insert_simpl. reflexivity.
Qed.

Lemma node_priority_valid v x :
  NodeConfig.model_validate imp v = Ok x → 0 ≤ NodeConfig.priority x < 2 ^ 32 - 1.
Proof.
  intros (d & -> & H)%model_schema_Ok_inv.
  unfold NodeConfig.fields in H. fields_inv H. simpl.
  apply required_Ok_inv in Hfield as (? & _ & [_ Hb]%int_schema_Ok_inv).
  fold priority_bounds in Hb. rewrite check_priority_bounds in Hb.
  destruct (Z.leb_spec (2 ^ 32 - 1) a); [done|].
  destruct (Z.ltb_spec a 0); [done|]. lia.
Qed.

Lemma node_priority_inv d p x :
  NodeConfig.model_validate imp (PDict (<["priority" := PInt p]> d)) = Ok x →
  NodeConfig.priority x = p.
Proof.
  unfold NodeConfig.model_validate, model_schema, NodeConfig.fields. intros H.
  fields_inv H. simpl. rewrite required_insert_eq in Hfield.
  apply at_loc_Ok, int_schema_Ok_inv in Hfield as [[= ->] _]. done.
Qed.

(** C3.  Take a NodeConfig document that is valid once its priority is 0:
    node_type is there and every field other than priority is valid.  With
    the integer [p] for priority it is accepted exactly when
    0 <= p < 2^32 - 1, and the instance has the priority [p]; below 0, and
    from 2^32 - 1 on, it is rejected with one error, a range violation
    located at priority.  So 2^32 - 2 is accepted, 2^32 - 1 and -1 are
    rejected.  And the priority of every accepted NodeConfig, whatever it
    was built from, is in that range. *)
Theorem node_priority_bounds (d : gmap string pyval) :
  is_ok (NodeConfig.model_validate imp (PDict (<["priority" := PInt 0]> d))) = true →
  let validate_with (p : Z) :=
    NodeConfig.model_validate imp (PDict (<["priority" := PInt p]> d)) in
  (∀ p, is_ok (validate_with p) = true ↔ 0 ≤ p < 2 ^ 32 - 1)
  ∧ (∀ p x, validate_with p = Ok x → NodeConfig.priority x = p)
  ∧ (∀ p, p < 0 →
       validate_with p = ValidationError [mkError greater_than_equal [Key "priority"]])
  ∧ (∀ p, 2 ^ 32 - 1 ≤ p →
       validate_with p = ValidationError [mkError less_than [Key "priority"]])
  ∧ is_ok (validate_with (2 ^ 32 - 2)) = true
  ∧ validate_with (2 ^ 32 - 1) = ValidationError [mkError less_than [Key "priority"]]
  ∧ validate_with (-1) = ValidationError [mkError greater_than_equal [Key "priority"]]
  ∧ kind_of less_than = RangeViolation
  ∧ kind_of greater_than_equal = RangeViolation
  ∧ (∀ v x, NodeConfig.model_validate imp v = Ok x →
            0 ≤ NodeConfig.priority x < 2 ^ 32 - 1).
Proof.
  destruct (node_fields_with_priority d) as [others Hv].
  rewrite Hv, is_ok_ap, andb_true_iff. intros [[g ->]%is_ok_true _]. cbv zeta.
  assert (Hlow : ∀ p, p < 0 →
    NodeConfig.model_validate imp (PDict (<["priority" := PInt p]> d))
    = ValidationError [mkError greater_than_equal [Key "priority"]]).
  { intros p Hp. rewrite Hv, priority_schema.
    destruct (Z.leb_spec (2 ^ 32 - 1) p); [lia|].
    by destruct (Z.ltb_spec p 0); [|lia]. }
  assert (Hhigh : ∀ p, 2 ^ 32 - 1 ≤ p →
    NodeConfig.model_validate imp (PDict (<["priority" := PInt p]> d))
    = ValidationError [mkError less_than [Key "priority"]]).
  { intros p Hp. rewrite Hv, priority_schema.
    by destruct (Z.leb_spec (2 ^ 32 - 1) p); [|lia]. }
  assert (Hin : ∀ p, 0 ≤ p < 2 ^ 32 - 1 →
    is_ok (NodeConfig.model_validate imp (PDict (<["priority" := PInt p]> d))) = true).
  { intros p Hp. rewrite Hv, priority_schema.
    destruct (Z.leb_spec (2 ^ 32 - 1) p); [lia|].
    by destruct (Z.ltb_spec p 0); [lia|]. }
  split_and!; try done.
  - intros p. split.
    + intros Hok. destruct (decide (p < 0)) as [Hp|Hp].
      { by rewrite (Hlow p Hp) in Hok. }
      destruct (decide (2 ^ 32 - 1 ≤ p)) as [Hp'|Hp']; [|lia].
      by rewrite (Hhigh p Hp') in Hok.
    + apply Hin.
  - apply node_priority_inv.
  - apply Hin. lia.
  - apply node_priority_valid.
Qed.

End NodeConfig.

(** An instance of C3: [{"nodeType": "main", "priority": 2^32 - 2}]. *)
Lemma node_priority_bounds_witness :
  is_ok (NodeConfig.model_validate plain_imports
           (PDict (<["priority" := PInt (2 ^ 32 - 2)]> {["nodeType" := PStr "main"]})))
  = true.
Proof.
  apply (node_priority_bounds plain_imports {["nodeType" := PStr "main"]}).
  reflexivity.
Defined.

(** ** Alert rules: absent, or present and empty *)

Lemma alert_rules_empty e :
  (∀ k, k ∈ ["cpu"; "ram"; "partitions"; "download"; "upload"] → e !! k = None) →
  AlertRules.model_validate (PDict e) = Ok (AlertRules.mk None None None None None).
Proof.
  intros He.
  unfold AlertRules.model_validate, model_schema, AlertRules.fields.
  rewrite !with_default_None_absent; [done|apply He; set_solver..].
Qed.

(** C7.  A NodeConfig document without the key alertRules, when valid, gives
    an instance without alert rules ([None]).  The same document with an
    alertRules object in which cpu, ram, partitions, download and upload
    are all absent is valid too; its instance has alert rules, all five of
    them unset, which is another value than [None], and is the same in
    every other field. *)
Theorem node_alert_rules_absent_or_empty (imp : Imports) (d : gmap string pyval)
    (x : NodeConfig.t imp) :
  d !! "alertRules" = None →
  NodeConfig.model_validate imp (PDict d) = Ok x →
  NodeConfig.alert_rules x = None
  ∧ ∀ e,
      (∀ k, k ∈ ["cpu"; "ram"; "partitions"; "download"; "upload"] → e !! k = None) →
      NodeConfig.model_validate imp (PDict (<["alertRules" := PDict e]> d))
      = Ok (NodeConfig.mk (NodeConfig.node_type x) (NodeConfig.node_id x)
              (Some (AlertRules.mk None None None None None))
              (NodeConfig.resource_ratios x) (NodeConfig.devices x)
              (NodeConfig.resources x) (NodeConfig.labels x) (NodeConfig.priority x))
      ∧ Some (AlertRules.mk None None None None None) ≠ NodeConfig.alert_rules x.
Proof.
  intros Hd H.
  unfold NodeConfig.model_validate, model_schema, NodeConfig.fields in H.
  fields_inv H. simpl.
  rewrite (with_default_None_absent _ _ _ Hd) in Hfield4. injection Hfield4 as <-.
  split; [done|]. intros e He. split; [|done].
  unfold NodeConfig.model_validate, model_schema, NodeConfig.fields,
    node_type_field, node_id_field in *.
  insert_simpl.
  rewrite Hfield, Hfield0, Hfield1, Hfield2, Hfield3, Hfield5, Hfield6.
  by rewrite (alert_rules_empty e He).
Qed.

(** An instance of C7: [{"nodeType": "main", "priority": 5}], without and
    with ["alertRules": {}]. *)
Lemma node_alert_rules_absent_or_empty_witness :
  NodeConfig.model_validate plain_imports
    (PDict (<["alertRules" := PDict ∅]>
              (<["nodeType" := PStr "main"]> {["priority" := PInt 5]})))
  = Ok (NodeConfig.mk (imp := plain_imports) "main" None
          (Some (AlertRules.mk None None None None None)) None None None None 5).
Proof.
  destruct (node_alert_rules_absent_or_empty plain_imports
              (<["nodeType" := PStr "main"]> {["priority" := PInt 5]})
              (NodeConfig.mk (imp := plain_imports) "main" None None None None None None 5))
    as [_ Hempty]; [reflexivity..|].
  apply (Hempty ∅). intros k _. apply lookup_empty.
Defined.

(** ** The keys of a dump *)

Section Dump.
Context {A : Type}.
Implicit Types (m : gmap string pyval) (f : A → pyval) (o : option A).

Lemma lookup_dump_field_eq k v m : dump_field k v m !! k = Some v.
Proof. apply lookup_insert_eq. Qed.

Lemma lookup_dump_field_ne k k' v m : k ≠ k' → dump_field k v m !! k' = m !! k'.
Proof. apply lookup_insert_ne. Qed.

Lemma lookup_dump_optional_ne k k' f o m :
  k ≠ k' → dump_optional k f o m !! k' = m !! k'.
Proof. intros Hne. destruct o; simpl; [by apply lookup_insert_ne | done]. Qed.

Lemma lookup_dump_optional_eq k f o m :
  m !! k = None → dump_optional k f o m !! k = f <$> o.
Proof. intros Hm. destruct o; simpl; [by apply lookup_insert_eq | done]. Qed.


End Dump.

(** Looks a key up in a dump. *)
Ltac dump_other_keys :=
  repeat first
    [ rewrite lookup_dump_field_ne by done
    | rewrite lookup_dump_optional_ne by done ];
  try apply lookup_empty.

Ltac dump_lookup :=
  dump_other_keys;
  first
    [ rewrite lookup_dump_field_eq
    | rewrite lookup_dump_optional_eq by dump_other_keys
    | rewrite lookup_empty ].

(** ** Wire names *)






(** ** Where an error is reported *)

Lemma required_errors {A} d k (schema : pyval → result A) v e :
  d !! k = Some v → e ∈ errors_of (schema v) →
  outer_loc (Key k) e ∈ errors_of (required d k schema).
Proof.
  intros Hd He. rewrite (required_present _ _ _ _ Hd), errors_of_at_loc.
  by apply list_elem_of_fmap_2.
Qed.

Lemma with_default_None_errors {A} d k (schema : pyval → result A) v e :
  d !! k = Some v → e ∈ errors_of (schema v) →
  outer_loc (Key k) e ∈ errors_of (with_default_None d k schema).
Proof.
  intros Hd He.
  rewrite (with_default_None_present _ _ _ _ Hd), errors_of_map, errors_of_at_loc.
  by apply list_elem_of_fmap_2.
Qed.

Lemma list_items_errors {A} (item : pyval → result A) l i n v e :
  l !! n = Some v → e ∈ errors_of (item v) →
  outer_loc (Idx (i + n)) e ∈ errors_of (list_items item i l).
Proof.
  revert i n. induction l as [|w l IH]; intros i n Hn He; [done|].
  simpl. result_simpl. apply elem_of_app.
  destruct n as [|n]; simpl in Hn.
  - left. injection Hn as ->. rewrite Nat.add_0_r. by apply list_elem_of_fmap_2.
  - right. replace (i + S n)%nat with (S i + n)%nat by lia. by apply IH.
Qed.

Lemma list_schema_errors {A} (item : pyval → result A) l n v e :
  l !! n = Some v → e ∈ errors_of (item v) →
  outer_loc (Idx n) e ∈ errors_of (list_schema item (PList l)).
Proof. apply (list_items_errors item l 0 n). Qed.

Lemma alert_rules_rule_errors d k v e :
  d !! k = Some v → e ∈ alert_rule_errors k v →
  outer_loc (Key k) e ∈ errors_of (AlertRules.model_validate (PDict d)).
Proof.
  intros Hd He.
  unfold AlertRules.model_validate, model_schema, AlertRules.fields. result_simpl.
  rewrite !elem_of_app. unfold alert_rule_errors in He.
  repeat case_bool_decide; [| | |by apply elem_of_nil in He].
  - repeat match goal with H : _ ∈ _ :: _ |- _ => apply elem_of_cons in H as [->|H] end;
      [..|exfalso; by eapply elem_of_nil].
    + do 4 left. by eapply with_default_None_errors.
    + do 3 left. right. by eapply with_default_None_errors.
  - subst k. do 2 left. right. by eapply with_default_None_errors.
  - repeat match goal with H : _ ∈ _ :: _ |- _ => apply elem_of_cons in H as [->|H] end;
      [..|exfalso; by eapply elem_of_nil].
    + left. right. by eapply with_default_None_errors.
    + right. by eapply with_default_None_errors.
Qed.

Lemma node_alert_rules_errors imp d v e :
  d !! "alertRules" = Some v → e ∈ errors_of (AlertRules.model_validate v) →
  outer_loc (Key "alertRules") e ∈ errors_of (NodeConfig.model_validate imp (PDict d)).
Proof.
  intros Hd He.
  unfold NodeConfig.model_validate, model_schema, NodeConfig.fields. result_simpl.
  rewrite !elem_of_app. do 5 left. right. by eapply with_default_None_errors.
Qed.

Lemma unit_nodes_errors imp d l n v e :
  d !! "nodes" = Some (PList l) → l !! n = Some v →
  e ∈ errors_of (NodeConfig.model_validate imp v) →
  outer_loc (Key "nodes") (outer_loc (Idx n) e)
    ∈ errors_of (UnitConfig.model_validate imp (PDict d)).
Proof.
  intros Hd Hn He.
  unfold UnitConfig.model_validate, model_schema, UnitConfig.fields. result_simpl.
  rewrite !elem_of_app. right.
  eapply required_errors; [done|]. by eapply list_schema_errors.
Qed.

(** C6.  An error found in a nested object is reported with the path of
    keys and indices that leads to it from the validated document.  The
    NodeConfig document
    [{"nodeType":"main","priority":5,
      "alertRules":{"cpu":{"minThreshold":10,"maxThreshold":150,"minTimeout":30}}}]
    (with "main" a valid node type) is rejected with one error, a range
    violation whose location prints as alertRules.cpu.maxThreshold, while
    with 80 for 150 it is accepted.  In general an error in the rule [k]
    of the alert rules of a node (cpu, ram, partitions, download or upload)
    is reported by the validation of the node under alertRules.k, and by
    the validation of a unit that has the node at index [i] of its nodes
    under nodes.i.alertRules.k; in both cases the document is rejected by
    the one call. *)
Theorem nested_error_path (imp : Imports) :
  (∀ nt, validate (TypeNodeTypeMandatory imp) (PStr "main") = Ok nt →
     NodeConfig.model_validate imp (PDict (node_doc (PInt 150)))
     = ValidationError
         [mkError less_than_equal [Key "alertRules"; Key "cpu"; Key "maxThreshold"]]
     ∧ NodeConfig.model_validate imp (PDict (node_doc (PInt 80)))
       = Ok (NodeConfig.mk nt None
               (Some (AlertRules.mk
                        (Some (AlertRulePercents.mk (inject_Z 10) (inject_Z 80)
                                 (inject_Z 30)))
                        None None None None))
               None None None None 5))
  ∧ kind_of less_than_equal = RangeViolation
  ∧ loc_to_string [Key "alertRules"; Key "cpu"; Key "maxThreshold"]
    = "alertRules.cpu.maxThreshold"
  ∧ (∀ dn da k v e,
       dn !! "alertRules" = Some (PDict da) → da !! k = Some v →
       e ∈ alert_rule_errors k v →
       is_ok (NodeConfig.model_validate imp (PDict dn)) = false
       ∧ mkError (err_type e) ([Key "alertRules"; Key k] ++ err_loc e)
           ∈ errors_of (NodeConfig.model_validate imp (PDict dn)))
  ∧ (∀ d nodes i dn da k v e,
       d !! "nodes" = Some (PList nodes) → nodes !! i = Some (PDict dn) →
       dn !! "alertRules" = Some (PDict da) → da !! k = Some v →
       e ∈ alert_rule_errors k v →
       is_ok (UnitConfig.model_validate imp (PDict d)) = false
       ∧ mkError (err_type e)
           ([Key "nodes"; Idx i; Key "alertRules"; Key k] ++ err_loc e)
           ∈ errors_of (UnitConfig.model_validate imp (PDict d)))
  ∧ loc_to_string [Key "nodes"; Idx 2; Key "alertRules"; Key "cpu"; Key "minThreshold"]
    = "nodes.2.alertRules.cpu.minThreshold".
Proof.
  assert (Hnode : ∀ dn da k v e,
       dn !! "alertRules" = Some (PDict da) → da !! k = Some v →
       e ∈ alert_rule_errors k v →
       mkError (err_type e) ([Key "alertRules"; Key k] ++ err_loc e)
         ∈ errors_of (NodeConfig.model_validate imp (PDict dn))).
  { intros dn da k v e Hdn Hda He.
    apply (node_alert_rules_errors imp dn _ _ Hdn
             (alert_rules_rule_errors da k v e Hda He)). }
  split_and!; try done.
  - intros nt Hnt.
    unfold NodeConfig.model_validate, model_schema, NodeConfig.fields, node_type_field.
    rewrite !(required_present _ "nodeType" _ (PStr "main")) by reflexivity.
    rewrite Hnt. split; reflexivity.
  - intros dn da k v e Hdn Hda He. pose proof (Hnode dn da k v e Hdn Hda He) as Hin.
    split; [by eapply errors_not_ok | done].
  - intros d nodes i dn da k v e Hd Hi Hdn Hda He.
    pose proof (unit_nodes_errors imp d nodes i _ _ Hd Hi
                  (Hnode dn da k v e Hdn Hda He)) as Hin.
    split; [by eapply errors_not_ok | done].
Qed.

(** An instance of C6 with the plain imports: a unit whose third node has
    the cpu rule [{"minThreshold": -1, "maxThreshold": 80, "minTimeout": 30}]. *)
Lemma nested_error_path_witness :
  mkError greater_than_equal
    [Key "nodes"; Idx 2; Key "alertRules"; Key "cpu"; Key "minThreshold"]
  ∈ errors_of
      (UnitConfig.model_validate plain_imports
         (PDict {[ "nodes" :=
                   PList [PDict ∅; PDict ∅;
                          PDict {[ "alertRules" :=
                            PDict {[ "cpu" :=
                              PDict (threshold_doc (PInt (-1)) (PInt 80) (PInt 30)) ]} ]}] ]})).
Proof.
  destruct (nested_error_path plain_imports) as (_ & _ & _ & _ & Hunit & _).
  eapply (Hunit _ _ 2%nat _ _ "cpu" _ (mkError greater_than_equal [Key "minThreshold"]));
    try reflexivity.
  vm_compute. apply list_elem_of_here.
Defined.

(** ** Round trips *)

Lemma float_round_trip b : round_trips (float_schema b) PFloat.
Proof.
  intros v q [_ Hb]%float_schema_Ok_inv. unfold float_schema; simpl. by rewrite Hb.
Qed.

Lemma int_round_trip b : round_trips (int_schema b) PInt.
Proof.
  intros v z [_ Hb]%int_schema_Ok_inv. unfold int_schema; simpl. by rewrite Hb.
Qed.

Lemma str_round_trip : round_trips str_schema PStr.
Proof. by intros v s _. Qed.

Lemma str_or_int_round_trip : round_trips str_or_int_schema str_or_int_dump.
Proof. intros v [s|z] _; reflexivity. Qed.

Lemma list_items_Ok_inv {A} (item : pyval → result A) l i xs :
  list_items item i l = Ok xs → Forall2 (λ v x, item v = Ok x) l xs.
Proof.
  revert i xs. induction l as [|v l IH]; intros i xs; simpl.
  - intros [= <-]. constructor.
  - intros (g & ys & (x & Hx%at_loc_Ok & ->)%map_Ok_inv & Hys & ->)%ap_Ok_inv.
    constructor; eauto.
Qed.

Lemma list_items_dump {A} (item : pyval → result A) (dump : A → pyval) i xs :
  Forall (λ x, item (dump x) = Ok x) xs → list_items item i (dump <$> xs) = Ok xs.
Proof.
  intros Hxs. revert i. induction Hxs as [|x xs Hx _ IH]; intros i; simpl; [done|].
  by rewrite Hx, IH.
Qed.

Lemma list_round_trip {A} (item : pyval → result A) (dump : A → pyval) :
  round_trips item dump → round_trips (list_schema item) (λ xs, PList (dump <$> xs)).
Proof.
  intros Hrt v xs Hv. destruct v as [| | | | |l|]; simpl in Hv; try done.
  apply list_items_Ok_inv in Hv. simpl. apply list_items_dump.
  induction Hv as [|v x l xs Hx _ IH]; constructor; eauto.
Qed.

Lemma required_round_trip {A} (schema : pyval → result A) (dump : A → pyval) d m k a :
  round_trips schema dump →
  required d k schema = Ok a → m !! k = Some (dump a) → required m k schema = Ok a.
Proof.
  intros Hrt (v & _ & Hv)%required_Ok_inv Hm.
  by rewrite (required_present _ _ _ _ Hm), (Hrt _ _ Hv).
Qed.

Lemma with_default_None_round_trip {A} (schema : pyval → result A) (dump : A → pyval)
    d m k o :
  round_trips schema dump →
  with_default_None d k schema = Ok o → m !! k = dump <$> o →
  with_default_None m k schema = Ok o.
Proof.
  intros Hrt Ho%with_default_None_Ok_inv Hm. destruct o as [a|]; simpl in Hm.
  - destruct Ho as (v & _ & Hv).
    by rewrite (with_default_None_present _ _ _ _ Hm), (Hrt _ _ Hv).
  - by rewrite (with_default_None_absent _ _ _ Hm).
Qed.

(** The field [partitions], where null stands for no list as absence does. *)
Lemma nullable_list_round_trip {A} (item : pyval → result A) (dump : A → pyval) d m k o :
  round_trips item dump →
  mjoin <$$> with_default_None d k (nullable_schema (list_schema item)) = Ok o →
  m !! k = (λ xs, PList (dump <$> xs)) <$> o →
  mjoin <$$> with_default_None m k (nullable_schema (list_schema item)) = Ok o.
Proof.
  intros Hrt (oo & Hoo%with_default_None_Ok_inv & ->)%map_Ok_inv Hm.
  destruct oo as [[xs|]|]; simpl in Hm.
  - destruct Hoo as (v & _ & Hv).
    rewrite (with_default_None_present _ _ _ _ Hm). simpl.
    assert (list_schema item v = Ok xs) as Hxs.
    { destruct v; simpl in Hv; try done;
        by apply map_Ok_inv in Hv as (? & ? & [= <-]). }
    apply (list_round_trip _ _ Hrt) in Hxs. simpl in Hxs. by rewrite Hxs.
  - by rewrite (with_default_None_absent _ _ _ Hm).
  - by rewrite (with_default_None_absent _ _ _ Hm).
Qed.

Create HintDb round_trip.
#[local] Hint Resolve float_round_trip int_round_trip str_round_trip
  str_or_int_round_trip list_round_trip : round_trip.

(** Validates again, field by field, the dump of an instance whose fields
    [H : _ = Ok _] came from a first validation. *)
Ltac fields_round_trip :=
  repeat match goal with
    | H : required _ ?k ?schema = Ok ?a |- context [required ?m ?k ?schema] =>
        rewrite (required_round_trip schema _ _ m k a ltac:(eauto with round_trip) H)
          by (by dump_lookup)
    | H : with_default_None _ ?k ?schema = Ok ?o
      |- context [with_default_None ?m ?k ?schema] =>
        rewrite (with_default_None_round_trip schema _ _ m k o
                   ltac:(eauto with round_trip) H)
          by (by dump_lookup)
    end.

Lemma percent_round_trip :
  round_trips AlertRulePercents.model_validate AlertRulePercents.model_dump.
Proof.
  intros v x (d & -> & H)%model_schema_Ok_inv.
  unfold AlertRulePercents.fields in H. fields_inv H.
  unfold AlertRulePercents.model_dump, AlertRulePercents.model_validate,
    model_schema, AlertRulePercents.fields; simpl.
  by fields_round_trip.
Qed.

Lemma disk_round_trip :
  round_trips AlertRulePercentsOfDisk.model_validate AlertRulePercentsOfDisk.model_dump.
Proof.
  intros v x (d & -> & H)%model_schema_Ok_inv.
  unfold AlertRulePercentsOfDisk.fields in H. fields_inv H.
  unfold AlertRulePercentsOfDisk.model_dump, AlertRulePercentsOfDisk.model_validate,
    model_schema, AlertRulePercentsOfDisk.fields; simpl.
  by fields_round_trip.
Qed.

Lemma points_round_trip :
  round_trips AlertRulePoints.model_validate AlertRulePoints.model_dump.
Proof.
  intros v x (d & -> & H)%model_schema_Ok_inv.
  unfold AlertRulePoints.fields in H. fields_inv H.
  unfold AlertRulePoints.model_dump, AlertRulePoints.model_validate,
    model_schema, AlertRulePoints.fields; simpl.
  by fields_round_trip.
Qed.

Lemma ratios_round_trip :
  round_trips ResourceRatiosInfo.model_validate ResourceRatiosInfo.model_dump.
Proof.
  intros v x (d & -> & H)%model_schema_Ok_inv.
  unfold ResourceRatiosInfo.fields in H. fields_inv H.
  unfold ResourceRatiosInfo.model_dump, ResourceRatiosInfo.model_validate,
    model_schema, ResourceRatiosInfo.fields; simpl.
  by fields_round_trip.
Qed.

#[local] Hint Resolve percent_round_trip disk_round_trip points_round_trip
  ratios_round_trip : round_trip.

Lemma alert_rules_round_trip :
  round_trips AlertRules.model_validate AlertRules.model_dump.
Proof.
  intros v x (d & -> & H)%model_schema_Ok_inv.
  unfold AlertRules.fields in H. fields_inv H.
  unfold AlertRules.model_dump, AlertRules.model_validate,
    model_schema, AlertRules.fields; simpl.
  fields_round_trip.
  rewrite (nullable_list_round_trip _ _ _ _ _ _ disk_round_trip Hfield1)
    by (by dump_lookup).
  done.
Qed.

#[local] Hint Resolve alert_rules_round_trip : round_trip.

Section RoundTrip.
Variable imp : Imports.
Hypothesis imports_ok : imports_round_trip imp.

Lemma resource_round_trip :
  round_trips (ResourceInfo.model_validate imp) (ResourceInfo.model_dump imp).
Proof using imports_ok.
  destruct imports_ok as (Hdev & Hmnt & Hhost & Hid & Hty & Hver).
  intros v x (d & -> & H)%model_schema_Ok_inv.
  unfold ResourceInfo.fields in H. fields_inv H.
  unfold ResourceInfo.model_dump, ResourceInfo.model_validate,
    model_schema, ResourceInfo.fields; simpl.
  by fields_round_trip.
Qed.

Lemma node_round_trip :
  round_trips (NodeConfig.model_validate imp) (NodeConfig.model_dump imp).
Proof using imports_ok.
  pose proof resource_round_trip as Hres.
  destruct imports_ok as (Hdev & Hmnt & Hhost & Hid & Hty & Hver).
  intros v x (d & -> & H)%model_schema_Ok_inv.
  unfold NodeConfig.fields, node_type_field, node_id_field in H. fields_inv H.
  unfold NodeConfig.model_dump, NodeConfig.model_validate,
    model_schema, NodeConfig.fields, node_type_field, node_id_field; simpl.
  by fields_round_trip.
Qed.

Lemma unit_round_trip :
  round_trips (UnitConfig.model_validate imp) (UnitConfig.model_dump imp).
Proof using imports_ok.
  pose proof node_round_trip as Hnode.
  destruct imports_ok as (Hdev & Hmnt & Hhost & Hid & Hty & Hver).
  intros v x (d & -> & H)%model_schema_Ok_inv.
  unfold UnitConfig.fields, version_field in H. fields_inv H.
  unfold UnitConfig.model_dump, UnitConfig.model_validate,
    model_schema, UnitConfig.fields, version_field; simpl.
  by fields_round_trip.
Qed.

End RoundTrip.

Lemma plain_imports_round_trip : imports_round_trip plain_imports.
Proof. repeat split; apply str_round_trip. Qed.

Lemma unit_Ok_inv imp v x :
  UnitConfig.model_validate imp v = Ok x →
  ∃ d, v = PDict d
     ∧ required d "formatVersion" str_or_int_schema = Ok (UnitConfig.format_version x)
     ∧ required d "nodes" (list_schema (NodeConfig.model_validate imp))
         = Ok (UnitConfig.nodes x).
Proof.
  intros (d & -> & H)%model_schema_Ok_inv. exists d. split; [done|].
  unfold UnitConfig.fields in H. fields_inv H. eauto.
Qed.

(** C4.  When the imported declarations round-trip, so does UnitConfig: the
    by-alias dump of a validated instance is accepted again and gives the
    very same instance.  The nodes of the instance are those of the
    document, one for one in the order of its list, and the dump lists
    their dumps in the same order; a format version given as a string is
    kept as a string and dumped as that string, one given as an integer is
    kept as an integer and dumped as that integer. *)
Theorem unit_config_round_trip (imp : Imports) (v : pyval) (x : UnitConfig.t imp) :
  imports_round_trip imp →
  UnitConfig.model_validate imp v = Ok x →
  UnitConfig.model_validate imp (UnitConfig.model_dump imp x) = Ok x
  ∧ (∃ d m,
       v = PDict d ∧ UnitConfig.model_dump imp x = PDict m
       ∧ (∀ l, d !! "nodes" = Some (PList l) →
               Forall2 (λ w n, NodeConfig.model_validate imp w = Ok n)
                 l (UnitConfig.nodes x))
       ∧ m !! "nodes" = Some (PList (NodeConfig.model_dump imp <$> UnitConfig.nodes x))
       ∧ (∀ s, d !! "formatVersion" = Some (PStr s) →
               UnitConfig.format_version x = Str s
               ∧ m !! "formatVersion" = Some (PStr s))
       ∧ (∀ z, d !! "formatVersion" = Some (PInt z) →
               UnitConfig.format_version x = Int z
               ∧ m !! "formatVersion" = Some (PInt z))).
Proof.
  intros Himp Hx. split; [by eapply unit_round_trip|].
  destruct (unit_Ok_inv _ _ _ Hx) as (d & -> & Hfv & Hnodes).
  exists d. eexists. split; [done|]. split; [reflexivity|].
  apply required_Ok_inv in Hfv as (vf & Hdf & Hvf).
  apply required_Ok_inv in Hnodes as (vn & Hdn & Hvn).
  split_and!.
  - intros l Hl. rewrite Hdn in Hl. injection Hl as ->.
    by apply list_items_Ok_inv in Hvn.
  - by dump_lookup.
  - intros s Hs. rewrite Hdf in Hs. injection Hs as ->.
    injection Hvf as <-. split; [done | by dump_lookup].
  - intros z Hz. rewrite Hdf in Hz. injection Hz as ->.
    injection Hvf as <-. split; [done | by dump_lookup].
Qed.

(** An instance of C4 with the plain imports: the unit document with
    ["formatVersion": "2"] and two nodes. *)
Lemma unit_config_round_trip_witness :
  ∃ x, UnitConfig.model_validate plain_imports (PDict (unit_doc (PStr "2"))) = Ok x
     ∧ UnitConfig.model_validate plain_imports (UnitConfig.model_dump plain_imports x)
       = Ok x
     ∧ UnitConfig.format_version x = Str "2".
Proof.
  eexists. split; [reflexivity|].
  split; [|reflexivity].
  eapply (unit_config_round_trip plain_imports (PDict (unit_doc (PStr "2")))).
  - apply plain_imports_round_trip.
  - reflexivity.
Defined.

(** * Further properties of the validators *)

(** ** Only the wire names are read *)

Section Agree.
Context {A : Type}.
Implicit Types (d : gmap string pyval) (schema : pyval → result A).

Lemma required_agree d d' k schema :
  d !! k = d' !! k → required d k schema = required d' k schema.
Proof. unfold required. by intros ->. Qed.

Lemma with_default_None_agree d d' k schema :
  d !! k = d' !! k → with_default_None d k schema = with_default_None d' k schema.
Proof. unfold with_default_None. by intros ->. Qed.
End Agree.

(** Rewrites the fields read from [d] into the fields read from [d'], the
    two documents agreeing on the keys by [H]. *)
Ltac fields_agree H :=
  repeat match goal with
    | |- context [required ?d ?k ?s] =>
        lazymatch type of H with
        | agree_on _ d ?d' =>
            rewrite (required_agree d d' k s) by (apply H; set_solver)
        end
    | |- context [with_default_None ?d ?k ?s] =>
        lazymatch type of H with
        | agree_on _ d ?d' =>
            rewrite (with_default_None_agree d d' k s) by (apply H; set_solver)
        end
    end.

(** The threshold rules and the resource ratios read nothing of a document
    but the values under their wire names: two documents which agree on
    them are validated alike, to the same instance or with the same errors,
    whatever else they hold.  Keys which name no field never cause a
    rejection. *)
Theorem rules_read_only_their_wire_names (d d' : gmap string pyval) :
  (agree_on ["minThreshold"; "maxThreshold"; "minTimeout"] d d' →
   AlertRulePercents.model_validate (PDict d)
   = AlertRulePercents.model_validate (PDict d'))
  ∧ (agree_on ["minThreshold"; "maxThreshold"; "minTimeout"; "name"] d d' →
     AlertRulePercentsOfDisk.model_validate (PDict d)
     = AlertRulePercentsOfDisk.model_validate (PDict d'))
  ∧ (agree_on ["minThreshold"; "maxThreshold"; "minTimeout"] d d' →
     AlertRulePoints.model_validate (PDict d)
     = AlertRulePoints.model_validate (PDict d'))
  ∧ (agree_on ["cpu"; "ram"; "storage"; "state"] d d' →
     ResourceRatiosInfo.model_validate (PDict d)
     = ResourceRatiosInfo.model_validate (PDict d')).
Proof.
  split_and!; intros H.
  - unfold AlertRulePercents.model_validate, model_schema, AlertRulePercents.fields.
    by fields_agree H.
  - unfold AlertRulePercentsOfDisk.model_validate, model_schema,
      AlertRulePercentsOfDisk.fields.
    by fields_agree H.
  - unfold AlertRulePoints.model_validate, model_schema, AlertRulePoints.fields.
    by fields_agree H.
  - unfold ResourceRatiosInfo.model_validate, model_schema, ResourceRatiosInfo.fields.
    by fields_agree H.
Qed.

(** An instance: a threshold document with two keys more. *)
Lemma rules_read_only_their_wire_names_witness :
  AlertRulePercents.model_validate
    (PDict (<["comment" := PStr "night"]> (<["min_threshold" := PInt 500]>
              (threshold_doc (PInt 10) (PInt 80) (PInt 30)))))
  = AlertRulePercents.model_validate (PDict (threshold_doc (PInt 10) (PInt 80) (PInt 30))).
Proof.
  apply rules_read_only_their_wire_names.
  intros k Hk.
  repeat (apply elem_of_cons in Hk as [->|Hk]); [..|by apply elem_of_nil in Hk];
    reflexivity.
Defined.

(** The alert rules, a resource, a node and a unit read nothing of a
    document but the values under their wire names either: two documents
    which agree on them are validated alike. *)
Theorem configs_read_only_their_wire_names (imp : Imports) (d d' : gmap string pyval) :
  (agree_on ["cpu"; "ram"; "partitions"; "download"; "upload"] d d' →
   AlertRules.model_validate (PDict d) = AlertRules.model_validate (PDict d'))
  ∧ (agree_on ["name"; "groups"; "mounts"; "envs"; "hosts"] d d' →
     ResourceInfo.model_validate imp (PDict d)
     = ResourceInfo.model_validate imp (PDict d'))
  ∧ (agree_on ["nodeType"; "nodeId"; "alertRules"; "resourceRatios"; "devices";
               "resources"; "labels"; "priority"] d d' →
     NodeConfig.model_validate imp (PDict d)
     = NodeConfig.model_validate imp (PDict d'))
  ∧ (agree_on ["formatVersion"; "version"; "nodes"] d d' →
     UnitConfig.model_validate imp (PDict d)
     = UnitConfig.model_validate imp (PDict d')).
Proof.
  split_and!; intros H.
  - unfold AlertRules.model_validate, model_schema, AlertRules.fields.
    by fields_agree H.
  - unfold ResourceInfo.model_validate, model_schema, ResourceInfo.fields.
    by fields_agree H.
  - unfold NodeConfig.model_validate, model_schema, NodeConfig.fields,
      node_type_field, node_id_field.
    by fields_agree H.
  - unfold UnitConfig.model_validate, model_schema, UnitConfig.fields, version_field.
    by fields_agree H.
Qed.

(** An instance: the node document with a key that names no field. *)
Lemma configs_read_only_their_wire_names_witness :
  NodeConfig.model_validate plain_imports
    (PDict (<["node_type" := PStr "other"]> (node_doc (PInt 80))))
  = NodeConfig.model_validate plain_imports (PDict (node_doc (PInt 80))).
Proof.
  apply configs_read_only_their_wire_names.
  intros k Hk.
  repeat (apply elem_of_cons in Hk as [->|Hk]); [..|by apply elem_of_nil in Hk];
    reflexivity.
Defined.

(** ** The two thresholds of a rule are checked apart *)






(** ** The rule of a partition is a percent rule with a name *)

Lemma str_schema_Ok_inv v s : str_schema v = Ok s → v = PStr s.
Proof. destruct v; simpl; intros; by simplify_eq. Qed.

(** [AlertRulePercentsOfDisk] inherits the three fields of
    [AlertRulePercents] and validates them as its parent does: a document
    is accepted as the rule of a partition exactly when it is accepted as a
    percent rule, with the same thresholds and timeout, and holds a string
    under name; and its errors are those of the percent rule, followed by
    that of the name. *)
Theorem disk_rule_extends_percent_rule (d : gmap string pyval) :
  (∀ y,
     AlertRulePercentsOfDisk.model_validate (PDict d) = Ok y
     ↔ AlertRulePercents.model_validate (PDict d)
       = Ok (AlertRulePercents.mk (AlertRulePercentsOfDisk.min_threshold y)
               (AlertRulePercentsOfDisk.max_threshold y)
               (AlertRulePercentsOfDisk.min_timeout y))
       ∧ d !! "name" = Some (PStr (AlertRulePercentsOfDisk.name y)))
  ∧ errors_of (AlertRulePercentsOfDisk.model_validate (PDict d))
    = errors_of (AlertRulePercents.model_validate (PDict d))
      ++ errors_of (required d "name" str_schema).
Proof.
  split; [|apply disk_fields_errors].
  intros y. split.
  - intros H.
    unfold AlertRulePercentsOfDisk.model_validate, model_schema,
      AlertRulePercentsOfDisk.fields in H.
    fields_inv H. simpl. split.
    + by apply percent_fields_Ok.
    + by apply required_Ok_inv in Hfield as (v & -> & ->%str_schema_Ok_inv).
  - intros [Hx Hname]. destruct y as [a b c s].
    exact (disk_accepted d _ s Hx Hname).
Qed.

(** ** A rejection always says why *)

Section Explained.
Context {A B : Type}.
Implicit Types (r : result A) (rf : result (A → B)) (schema : pyval → result A).

Lemma explained_Ok (a : A) : explained (Ok a).
Proof. by intros ?. Qed.

Lemma explained_fail t : explained (fail (A := A) t).
Proof. by intros _. Qed.

Lemma explained_map (f : A → B) r : explained r → explained (f <$$> r).
Proof. unfold explained. by result_simpl. Qed.

Lemma explained_ap rf r : explained rf → explained r → explained (rf <**> r).
Proof.
  unfold explained. result_simpl. intros Hf Hr Hok Hnil.
  apply app_eq_nil in Hnil as [H1 H2].
  apply andb_false_iff in Hok as [H|H]; [by apply Hf | by apply Hr].
Qed.

Lemma explained_at_loc i r : explained r → explained (at_loc i r).
Proof.
  unfold explained. result_simpl. intros Hr H Hnil%fmap_nil_inv. by apply Hr.
Qed.

Lemma explained_required d k schema :
  (∀ v, explained (schema v)) → explained (required d k schema).
Proof.
  intros Hs. unfold required. destruct (d !! k); [by apply explained_at_loc|].
  by intros _.
Qed.

End Explained.

Lemma explained_list_items {A} (schema : pyval → result A) i l :
  (∀ v, explained (schema v)) → explained (list_items schema i l).
Proof.
  intros Hs. revert i. induction l as [|v l IH]; intros i; simpl.
  - apply explained_Ok.
  - apply explained_ap; [|apply IH].
    apply explained_map. apply explained_at_loc, Hs.
Qed.

Lemma explained_list_schema {A} (schema : pyval → result A) v :
  (∀ v, explained (schema v)) → explained (list_schema schema v).
Proof.
  intros Hs. destruct v; simpl; try apply explained_fail.
  by apply explained_list_items.
Qed.

Lemma explained_model_schema {A} (fields : gmap string pyval → result A) v :
  (∀ d, explained (fields d)) → explained (model_schema fields v).
Proof. intros Hf. destruct v; simpl; try apply explained_fail. apply Hf. Qed.

Lemma explained_with_default_None {A} d k (schema : pyval → result A) :
  (∀ v, explained (schema v)) → explained (with_default_None d k schema).
Proof.
  intros Hs. unfold with_default_None. destruct (d !! k); [|apply explained_Ok].
  apply explained_map, explained_at_loc, Hs.
Qed.

Lemma explained_nullable {A} (schema : pyval → result A) v :
  (∀ v, explained (schema v)) → explained (nullable_schema schema v).
Proof.
  intros Hs. destruct v; simpl; try apply explained_Ok; apply explained_map, Hs.
Qed.

Lemma explained_float_value v : explained (float_value v).
Proof.
  destruct v; simpl; try apply explained_Ok; try apply explained_fail.
  destruct (str_as_float _); [apply explained_Ok | apply explained_fail].
Qed.

Lemma explained_float_schema b v : explained (float_schema b v).
Proof.
  unfold float_schema. pose proof (explained_float_value v) as Hv.
  destruct (float_value v) as [q|es]; [|done].
  destruct (check_bounds_Q b q); [apply explained_fail | apply explained_Ok].
Qed.

Lemma explained_int_value v : explained (int_value v).
Proof.
  destruct v; simpl; try apply explained_Ok; try apply explained_fail.
  - destruct (Qeq_bool _ _); [apply explained_Ok | apply explained_fail].
  - destruct (str_as_int _); [apply explained_Ok | apply explained_fail].
Qed.

Lemma explained_int_schema b v : explained (int_schema b v).
Proof.
  unfold int_schema. pose proof (explained_int_value v) as Hv.
  destruct (int_value v) as [z|es]; [|done].
  destruct (check_bounds_Z b z); [apply explained_fail | apply explained_Ok].
Qed.

Lemma explained_str_schema v : explained (str_schema v).
Proof. destruct v; simpl; try apply explained_fail. apply explained_Ok. Qed.

Lemma explained_str_or_int_schema v : explained (str_or_int_schema v).
Proof.
  unfold str_or_int_schema.
  destruct v; try apply explained_Ok;
    destruct (int_value _); try apply explained_Ok; by intros _.
Qed.

Create HintDb explained.
#[local] Hint Resolve explained_Ok explained_fail explained_map explained_ap
  explained_at_loc explained_required explained_with_default_None
  explained_list_schema explained_nullable explained_float_schema
  explained_int_schema explained_str_schema explained_str_or_int_schema
  explained_model_schema : explained.

Lemma explained_percent v : explained (AlertRulePercents.model_validate v).
Proof.
  apply explained_model_schema. intros d. unfold AlertRulePercents.fields.
  auto 10 with explained.
Qed.

Lemma explained_disk v : explained (AlertRulePercentsOfDisk.model_validate v).
Proof.
  apply explained_model_schema. intros d. unfold AlertRulePercentsOfDisk.fields.
  auto 10 with explained.
Qed.

Lemma explained_points v : explained (AlertRulePoints.model_validate v).
Proof.
  apply explained_model_schema. intros d. unfold AlertRulePoints.fields.
  auto 10 with explained.
Qed.

Lemma explained_ratios v : explained (ResourceRatiosInfo.model_validate v).
Proof.
  apply explained_model_schema. intros d. unfold ResourceRatiosInfo.fields.
  auto 10 with explained.
Qed.

#[local] Hint Resolve explained_percent explained_disk explained_points
  explained_ratios : explained.

Lemma explained_alert_rules v : explained (AlertRules.model_validate v).
Proof.
  apply explained_model_schema. intros d. unfold AlertRules.fields.
  auto 12 with explained.
Qed.

#[local] Hint Resolve explained_alert_rules : explained.

Lemma explained_resource imp v :
  imports_explained imp → explained (ResourceInfo.model_validate imp v).
Proof.
  intros (Hdev & Hmnt & Hhost & Hid & Hty & Hver).
  apply explained_model_schema. intros d. unfold ResourceInfo.fields.
  auto 12 with explained.
Qed.

Lemma explained_node imp v :
  imports_explained imp → explained (NodeConfig.model_validate imp v).
Proof.
  intros Himp. pose proof (λ v, explained_resource imp v Himp) as Hres.
  destruct Himp as (Hdev & Hmnt & Hhost & Hid & Hty & Hver).
  apply explained_model_schema. intros d.
  unfold NodeConfig.fields, node_type_field, node_id_field.
  auto 20 with explained.
Qed.

Lemma explained_unit imp v :
  imports_explained imp → explained (UnitConfig.model_validate imp v).
Proof.
  intros Himp. pose proof (λ v, explained_node imp v Himp) as Hnode.
  destruct Himp as (Hdev & Hmnt & Hhost & Hid & Hty & Hver).
  apply explained_model_schema. intros d.
  unfold UnitConfig.fields, version_field.
  auto 12 with explained.
Qed.

Lemma explained_iff {A} (r : result A) :
  explained r → (is_ok r = true ↔ errors_of r = []).
Proof.
  intros Hr. split.
  - by intros [a ->]%is_ok_true.
  - intros Hnil. destruct (is_ok r) eqn:Hok; [done|]. by destruct (Hr Hok).
Qed.

Lemma plain_imports_explained : imports_explained plain_imports.
Proof. repeat split; apply explained_str_schema. Qed.

(** No document is rejected without an error to say why: for every class of
    the file the validation of a value either accepts it or reports at
    least one error, so that a value is accepted exactly when the list of
    its errors is empty.  For the classes built on imported declarations
    this holds as soon as it holds of those. *)
Theorem rejections_are_explained (v : pyval) :
  (is_ok (AlertRulePercents.model_validate v) = true
   ↔ errors_of (AlertRulePercents.model_validate v) = [])
  ∧ (is_ok (AlertRulePercentsOfDisk.model_validate v) = true
     ↔ errors_of (AlertRulePercentsOfDisk.model_validate v) = [])
  ∧ (is_ok (AlertRulePoints.model_validate v) = true
     ↔ errors_of (AlertRulePoints.model_validate v) = [])
  ∧ (is_ok (ResourceRatiosInfo.model_validate v) = true
     ↔ errors_of (ResourceRatiosInfo.model_validate v) = [])
  ∧ (is_ok (AlertRules.model_validate v) = true
     ↔ errors_of (AlertRules.model_validate v) = [])
  ∧ (∀ imp, imports_explained imp →
       (is_ok (ResourceInfo.model_validate imp v) = true
        ↔ errors_of (ResourceInfo.model_validate imp v) = [])
       ∧ (is_ok (NodeConfig.model_validate imp v) = true
          ↔ errors_of (NodeConfig.model_validate imp v) = [])
       ∧ (is_ok (UnitConfig.model_validate imp v) = true
          ↔ errors_of (UnitConfig.model_validate imp v) = [])).
Proof.
  split_and!; try (apply explained_iff; auto with explained).
  intros imp Himp. split_and!; apply explained_iff.
  - by apply explained_resource.
  - by apply explained_node.
  - by apply explained_unit.
Qed.

(** An instance: a list is no unit document, and the rejection has an
    error. *)
Lemma rejections_are_explained_witness :
  errors_of (UnitConfig.model_validate plain_imports (PList [])) ≠ [].
Proof.
  destruct (rejections_are_explained (PList [])) as (_ & _ & _ & _ & _ & Himp).
  destruct (Himp plain_imports plain_imports_explained) as (_ & _ & Hunit).
  intros Hnil. apply Hunit in Hnil. discriminate Hnil.
Defined.

(** ** Where the errors of a percent rule are *)

Lemma float_schema_errors_shape b v :
  errors_of (float_schema b v) = []
  ∨ ∃ t, errors_of (float_schema b v) = [mkError t []]
         ∧ (kind_of t = RangeViolation ∨ kind_of t = TypeMismatch).
Proof.
  unfold float_schema. destruct (float_value v) as [q|es] eqn:Hv.
  - destruct (check_bounds_Q b q) as [t|] eqn:Hb; [|by left].
    right. exists t. split; [done|]. left. by eapply check_bounds_Q_kind.
  - right. destruct v as [| | | |s| |]; simpl in Hv; try discriminate;
      [ | destruct (str_as_float s); [discriminate|] | | ];
      injection Hv as <-; eexists; (split; [reflexivity|]); by right.
Qed.

(** The errors of a required float field: none, or one, located at the
    field: missing when the key is absent, a range violation or a type
    mismatch when it is present. *)
Lemma required_float_errors_shape d k b :
  errors_of (required d k (float_schema b)) = []
  ∨ ∃ t, errors_of (required d k (float_schema b)) = [mkError t [Key k]]
         ∧ match d !! k with
           | None => t = missing
           | Some _ => kind_of t = RangeViolation ∨ kind_of t = TypeMismatch
           end.
Proof.
  unfold required. destruct (d !! k) as [v|].
  - rewrite errors_of_at_loc.
    destruct (float_schema_errors_shape b v) as [->|(t & -> & Ht)]; [by left|].
    right. by exists t.
  - right. by exists missing.
Qed.

(** The errors of a percent rule are located at its fields, one error at
    most for each: every error has for location the wire name of one of the
    three fields, it is the missing-field error when the document has
    nothing under that name and a range violation or a type mismatch when
    it has something; and no two errors share a location.  A value which is
    not a document has the one error of its shape, located at the value
    itself. *)
Theorem percent_rule_errors_located :
  (∀ d e,
     e ∈ errors_of (AlertRulePercents.model_validate (PDict d)) →
     ∃ k, k ∈ ["minThreshold"; "maxThreshold"; "minTimeout"]
        ∧ err_loc e = [Key k]
        ∧ match d !! k with
          | None => err_type e = missing
          | Some _ => err_kind e = RangeViolation ∨ err_kind e = TypeMismatch
          end)
  ∧ (∀ d, NoDup (err_loc <$> errors_of (AlertRulePercents.model_validate (PDict d))))
  ∧ (∀ v, (∀ d, v ≠ PDict d) →
          AlertRulePercents.model_validate v = ValidationError [mkError model_type []]).
Proof.
  split_and!.
  - intros d e. rewrite percent_fields_errors, !elem_of_app.
    intros [He|[He|He]];
      [ destruct (required_float_errors_shape d "minThreshold" percent_bounds)
          as [Hs|(t & Hs & Ht)]
      | destruct (required_float_errors_shape d "maxThreshold" percent_bounds)
          as [Hs|(t & Hs & Ht)]
      | destruct (required_float_errors_shape d "minTimeout" positive_bounds)
          as [Hs|(t & Hs & Ht)] ];
      rewrite Hs in He; try (by apply elem_of_nil in He);
      apply list_elem_of_singleton in He as ->;
      eexists; (split; [|split; [reflexivity|exact Ht]]); set_solver.
  - intros d. rewrite percent_fields_errors.
    destruct (required_float_errors_shape d "minThreshold" percent_bounds)
      as [->|(t1 & -> & _)];
    destruct (required_float_errors_shape d "maxThreshold" percent_bounds)
      as [->|(t2 & -> & _)];
    destruct (required_float_errors_shape d "minTimeout" positive_bounds)
      as [->|(t3 & -> & _)];
    simpl; repeat (constructor; [set_solver|]); constructor.
  - intros v Hv. destruct v; try reflexivity. by destruct (Hv d).
Qed.

(** An instance: with 150 for minThreshold and no maxThreshold the errors
    are at minThreshold and at maxThreshold. *)
Lemma percent_rule_errors_located_witness :
  ∃ k, k ∈ ["minThreshold"; "maxThreshold"; "minTimeout"]
     ∧ err_loc (mkError missing [Key "maxThreshold"]) = [Key k].
Proof.
  destruct percent_rule_errors_located as (Hloc & _ & _).
  destruct (Hloc (<["minThreshold" := PInt 150]> {["minTimeout" := PInt 30]})
              (mkError missing [Key "maxThreshold"])) as (k & Hk & Hloc' & _).
  - vm_compute. apply list_elem_of_further, list_elem_of_here.
  - by exists k.
Defined.

(** ** Point rules: whole thresholds, all three fields *)








(** ** Alert rules, rule by rule *)

Lemma with_default_None_errors_of {A} d k (schema : pyval → result A) :
  errors_of (with_default_None d k schema)
  = match d !! k with
    | Some v => outer_loc (Key k) <$> errors_of (schema v)
    | None => []
    end.
Proof. unfold with_default_None. destruct (d !! k); [by result_simpl | done]. Qed.

Lemma alert_rules_errors_of d :
  errors_of (AlertRules.model_validate (PDict d))
  = alert_rule_slot_errors d "cpu" ++ alert_rule_slot_errors d "ram"
    ++ alert_rule_slot_errors d "partitions" ++ alert_rule_slot_errors d "download"
    ++ alert_rule_slot_errors d "upload".
Proof.
  unfold AlertRules.model_validate, model_schema, AlertRules.fields.
  result_simpl. rewrite !with_default_None_errors_of, <- !app_assoc. reflexivity.
Qed.

Lemma alert_rule_slot_errors_nil d k :
  alert_rule_slot_errors d k = [] ↔ ∀ v, d !! k = Some v → alert_rule_errors k v = [].
Proof.
  unfold alert_rule_slot_errors. destruct (d !! k) as [v|].
  - split.
    + intros H%fmap_nil_inv w [= <-]. done.
    + intros H. by rewrite (H v eq_refl).
  - split; [by intros _ v ? | done].
Qed.

Lemma with_default_None_is_Some {A} d k (schema : pyval → result A) o :
  with_default_None d k schema = Ok o → (is_Some o ↔ is_Some (d !! k)).
Proof.
  intros H%with_default_None_Ok_inv. destruct o as [a|].
  - destruct H as (v & -> & _). split; eauto.
  - rewrite H. split; by intros [? ?].
Qed.

Lemma nullable_list_is_Some {A} d k (item : pyval → result A) o :
  mjoin <$$> with_default_None d k (nullable_schema (list_schema item)) = Ok o →
  (is_Some o ↔ ∃ l, d !! k = Some (PList l)).
Proof.
  intros (oo & Hoo%with_default_None_Ok_inv & ->)%map_Ok_inv.
  destruct oo as [[xs|]|]; simpl.
  - destruct Hoo as (v & -> & Hv).
    destruct v; simpl in Hv; try done;
      try (by apply map_Ok_inv in Hv as (? & ? & ?)).
    split; eauto.
  - destruct Hoo as (v & -> & Hv).
    destruct v; simpl in Hv; try done;
      try (by apply map_Ok_inv in Hv as (? & ? & ?)).
    split; [by intros [? ?] | by intros [? ?]].
  - rewrite Hoo. split; [by intros [? ?] | by intros [? ?]].
Qed.

Lemma alert_rules_slots d x :
  AlertRules.model_validate (PDict d) = Ok x →
  (is_Some (AlertRules.cpu x) ↔ is_Some (d !! "cpu"))
  ∧ (is_Some (AlertRules.ram x) ↔ is_Some (d !! "ram"))
  ∧ (is_Some (AlertRules.partitions x) ↔ ∃ l, d !! "partitions" = Some (PList l))
  ∧ (is_Some (AlertRules.download x) ↔ is_Some (d !! "download"))
  ∧ (is_Some (AlertRules.upload x) ↔ is_Some (d !! "upload")).
Proof.
  unfold AlertRules.model_validate, model_schema, AlertRules.fields. intros H.
  fields_inv H. simpl.
  repeat match goal with
         | H : with_default_None _ _ _ = Ok _ |- _ =>
             apply with_default_None_is_Some in H
         | H : mjoin <$$> _ = Ok _ |- _ => apply nullable_list_is_Some in H
         end.
  by split_and!.
Qed.

(** The five rules of an alert rules object are validated each on its own.
    The errors of the object are those found for cpu, ram, partitions,
    download and upload, in this order, each under the name of its rule; the
    object is accepted exactly when no rule it holds has an error; and the
    accepted instance has a rule exactly where the document has one (for
    partitions: where it has a list). *)
Theorem alert_rules_rule_by_rule (d : gmap string pyval) :
  errors_of (AlertRules.model_validate (PDict d))
  = alert_rule_slot_errors d "cpu" ++ alert_rule_slot_errors d "ram"
    ++ alert_rule_slot_errors d "partitions" ++ alert_rule_slot_errors d "download"
    ++ alert_rule_slot_errors d "upload"
  ∧ (is_ok (AlertRules.model_validate (PDict d)) = true
     ↔ ∀ k v, k ∈ ["cpu"; "ram"; "partitions"; "download"; "upload"] →
              d !! k = Some v → alert_rule_errors k v = [])
  ∧ (∀ x, AlertRules.model_validate (PDict d) = Ok x →
       (is_Some (AlertRules.cpu x) ↔ is_Some (d !! "cpu"))
       ∧ (is_Some (AlertRules.ram x) ↔ is_Some (d !! "ram"))
       ∧ (is_Some (AlertRules.partitions x) ↔ ∃ l, d !! "partitions" = Some (PList l))
       ∧ (is_Some (AlertRules.download x) ↔ is_Some (d !! "download"))
       ∧ (is_Some (AlertRules.upload x) ↔ is_Some (d !! "upload"))).
Proof.
  split_and!.
  - apply alert_rules_errors_of.
  - rewrite (explained_iff _ (explained_alert_rules _)), alert_rules_errors_of.
    split.
    + intros H k v Hk.
      repeat apply app_eq_nil in H as [? H].
      repeat (apply elem_of_cons in Hk as [->|Hk]); [..|by apply elem_of_nil in Hk];
        by apply alert_rule_slot_errors_nil.
    + intros H.
      repeat (apply app_nil; split);
        apply alert_rule_slot_errors_nil; intros v; apply H; set_solver.
  - apply alert_rules_slots.
Qed.

(** An instance: an object with the one rule cpu. *)
Lemma alert_rules_rule_by_rule_witness :
  is_ok (AlertRules.model_validate
           (PDict {["cpu" := PDict (threshold_doc (PInt 10) (PInt 80) (PInt 30))]}))
  = true.
Proof.
  apply alert_rules_rule_by_rule.
  intros k v Hk.
  repeat (apply elem_of_cons in Hk as [->|Hk]); [..|by apply elem_of_nil in Hk];
    intros Hv; vm_compute in Hv;
    first [discriminate Hv | injection Hv as <-; vm_compute; reflexivity].
Defined.

(** ** Null is a value for partitions alone *)

Lemma with_default_None_null {A} d k (schema : pyval → result A) t :
  d !! k = Some PNone → schema PNone = fail t →
  errors_of (with_default_None d k schema) = [mkError t [Key k]].
Proof. apply with_default_None_fail. Qed.

Lemma alert_rules_partitions_null d :
  AlertRules.model_validate (PDict (<["partitions" := PNone]> d))
  = AlertRules.model_validate (PDict (delete "partitions" d)).
Proof.
  unfold AlertRules.model_validate, model_schema, AlertRules.fields.
  insert_simpl.
  rewrite (with_default_None_absent (delete "partitions" d) "partitions")
    by apply lookup_delete_eq.
  change (nullable_schema ?s PNone) with (Ok (A := option (list AlertRulePercentsOfDisk.t)) None).
  cbn [at_loc result_map mjoin option_join].
  unfold with_default_None. by rewrite !lookup_delete_ne.
Qed.

Lemma alert_rules_null d k :
  k ∈ ["cpu"; "ram"; "download"; "upload"] → d !! k = Some PNone →
  mkError model_type [Key k] ∈ errors_of (AlertRules.model_validate (PDict d)).
Proof.
  intros Hk Hd.
  replace (mkError model_type [Key k])
    with (outer_loc (Key k) (mkError model_type [])) by done.
  apply (alert_rules_rule_errors d k PNone); [done|].
  repeat (apply elem_of_cons in Hk as [->|Hk]); [..|by apply elem_of_nil in Hk];
    vm_compute; apply list_elem_of_here.
Qed.

Lemma node_null imp d k :
  k ∈ ["alertRules"; "resourceRatios"; "devices"; "resources"; "labels"] →
  d !! k = Some PNone →
  ∃ t, mkError t [Key k] ∈ errors_of (NodeConfig.model_validate imp (PDict d))
       ∧ kind_of t = StructuralViolation.
Proof.
  intros Hk Hd.
  unfold NodeConfig.model_validate, model_schema, NodeConfig.fields. result_simpl.
  repeat (apply elem_of_cons in Hk as [->|Hk]); [..|by apply elem_of_nil in Hk].
  - exists model_type. split; [|done].
    rewrite (with_default_None_null d "alertRules" _ model_type Hd eq_refl). set_solver.
  - exists model_type. split; [|done].
    rewrite (with_default_None_null d "resourceRatios" _ model_type Hd eq_refl).
    set_solver.
  - exists list_type. split; [|done].
    rewrite (with_default_None_null d "devices" _ list_type Hd eq_refl). set_solver.
  - exists list_type. split; [|done].
    rewrite (with_default_None_null d "resources" _ list_type Hd eq_refl). set_solver.
  - exists list_type. split; [|done].
    rewrite (with_default_None_null d "labels" _ list_type Hd eq_refl). set_solver.
Qed.

Lemma resource_null imp d k :
  k ∈ ["groups"; "mounts"; "envs"; "hosts"] → d !! k = Some PNone →
  mkError list_type [Key k] ∈ errors_of (ResourceInfo.model_validate imp (PDict d)).
Proof.
  intros Hk Hd.
  unfold ResourceInfo.model_validate, model_schema, ResourceInfo.fields. result_simpl.
  repeat (apply elem_of_cons in Hk as [->|Hk]); [..|by apply elem_of_nil in Hk];
    rewrite (with_default_None_null d _ _ list_type Hd eq_refl); set_solver.
Qed.

(** Of all the fields declared with [default=None] only partitions is
    declared [Optional]: there an explicit null is taken for no list, as
    absence is.  Everywhere else the default is not a value of the type: a
    null under cpu, ram, download or upload, under alertRules or
    resourceRatios, is rejected for not being an object, and a null under
    devices, resources or labels, or under groups, mounts, envs or hosts of
    a resource, for not being a list; the error is located at that key. *)
Theorem null_is_a_value_for_partitions_only (imp : Imports) (d : gmap string pyval) :
  AlertRules.model_validate (PDict (<["partitions" := PNone]> d))
  = AlertRules.model_validate (PDict (delete "partitions" d))
  ∧ (∀ k, k ∈ ["cpu"; "ram"; "download"; "upload"] → d !! k = Some PNone →
          is_ok (AlertRules.model_validate (PDict d)) = false
          ∧ mkError model_type [Key k]
              ∈ errors_of (AlertRules.model_validate (PDict d)))
  ∧ (∀ k, k ∈ ["alertRules"; "resourceRatios"; "devices"; "resources"; "labels"] →
          d !! k = Some PNone →
          is_ok (NodeConfig.model_validate imp (PDict d)) = false
          ∧ ∃ t, mkError t [Key k]
                   ∈ errors_of (NodeConfig.model_validate imp (PDict d))
               ∧ kind_of t = StructuralViolation)
  ∧ (∀ k, k ∈ ["groups"; "mounts"; "envs"; "hosts"] → d !! k = Some PNone →
          is_ok (ResourceInfo.model_validate imp (PDict d)) = false
          ∧ mkError list_type [Key k]
              ∈ errors_of (ResourceInfo.model_validate imp (PDict d))).
Proof.
  split_and!.
  - apply alert_rules_partitions_null.
  - intros k Hk Hd. pose proof (alert_rules_null d k Hk Hd) as Hin.
    split; [by eapply errors_not_ok | done].
  - intros k Hk Hd. destruct (node_null imp d k Hk Hd) as (t & Hin & Hkind).
    split; [by eapply errors_not_ok | eauto].
  - intros k Hk Hd. pose proof (resource_null imp d k Hk Hd) as Hin.
    split; [by eapply errors_not_ok | done].
Qed.

(** An instance: a null for the cpu rule. *)
Lemma null_is_a_value_for_partitions_only_witness :
  is_ok (AlertRules.model_validate (PDict {["cpu" := PNone]})) = false.
Proof.
  destruct (null_is_a_value_for_partitions_only plain_imports {["cpu" := PNone]})
    as (_ & Hrule & _).
  apply (Hrule "cpu"); [apply list_elem_of_here | reflexivity].
Defined.

(** ** Resources: a name, and lists of strings *)

Lemma list_of_str_Ok v ss :
  list_schema str_schema v = Ok ss ↔ v = PList (PStr <$> ss).
Proof.
  split.
  - destruct v as [| | | | |l|]; simpl; try done.
    intros H%list_items_Ok_inv. f_equal.
    induction H as [|v s l ss Hv _ IH]; [done|].
    apply str_schema_Ok_inv in Hv as ->. by rewrite IH.
  - intros ->. simpl. apply list_items_dump. by apply Forall_forall.
Qed.

Lemma with_default_None_list_of_str d k o :
  with_default_None d k (list_schema str_schema) = Ok o →
  d !! k = (λ ss, PList (PStr <$> ss)) <$> o.
Proof.
  intros H%with_default_None_Ok_inv. destruct o as [ss|]; [|done].
  by destruct H as (v & -> & ->%list_of_str_Ok).
Qed.

Lemma resource_fields_errors imp d :
  errors_of (ResourceInfo.model_validate imp (PDict d)) =
    errors_of (required d "name" str_schema) ++
    errors_of (with_default_None d "groups" (list_schema str_schema)) ++
    errors_of (with_default_None d "mounts"
                 (list_schema (validate (AosFileSystemMount imp)))) ++
    errors_of (with_default_None d "envs" (list_schema str_schema)) ++
    errors_of (with_default_None d "hosts" (list_schema (validate (AosHostRecord imp)))).
Proof.
  unfold ResourceInfo.model_validate, model_schema, ResourceInfo.fields.
  result_simpl. by rewrite <- !app_assoc.
Qed.

Lemma resource_item_not_str imp d k l i v :
  k ∈ ["groups"; "envs"] → d !! k = Some (PList l) → l !! i = Some v →
  (∀ s, v ≠ PStr s) →
  mkError string_type [Key k; Idx i]
    ∈ errors_of (ResourceInfo.model_validate imp (PDict d)).
Proof.
  intros Hk Hd Hi Hv. rewrite resource_fields_errors.
  assert (mkError string_type [Key k; Idx i]
            ∈ errors_of (with_default_None d k (list_schema str_schema))) as Hin.
  { apply (with_default_None_errors d k _ (PList l) (mkError string_type [Idx i]) Hd).
    apply (list_schema_errors str_schema l i v (mkError string_type []) Hi).
    rewrite (str_schema_not_str _ Hv). apply list_elem_of_here. }
  repeat (apply elem_of_cons in Hk as [->|Hk]); [..|by apply elem_of_nil in Hk];
    set_solver.
Qed.

(** In a resource document the name alone is required, and it has to be a
    string; with a name and none of groups, mounts, envs and hosts the
    document is accepted, the four lists being unset.  The groups and the
    environment variables of an accepted resource are the strings of the
    document, in their order: the list is unset exactly when the key is
    absent, an empty list being a list.  An item of groups or envs which is
    not a string is rejected with a type mismatch located at its index. *)
Theorem resource_info_name_and_lists (imp : Imports) (d : gmap string pyval) :
  let r := ResourceInfo.model_validate imp (PDict d) in
  (d !! "name" = None →
     is_ok r = false ∧ mkError missing [Key "name"] ∈ errors_of r)
  ∧ (∀ v, d !! "name" = Some v → (∀ s, v ≠ PStr s) →
          is_ok r = false ∧ mkError string_type [Key "name"] ∈ errors_of r)
  ∧ (∀ s, d !! "name" = Some (PStr s) →
          (∀ k, k ∈ ["groups"; "mounts"; "envs"; "hosts"] → d !! k = None) →
          r = Ok (ResourceInfo.mk s None None None None))
  ∧ (∀ x, r = Ok x →
          d !! "name" = Some (PStr (ResourceInfo.name x))
          ∧ d !! "groups" = (λ ss, PList (PStr <$> ss)) <$> ResourceInfo.groups x
          ∧ d !! "envs" = (λ ss, PList (PStr <$> ss)) <$> ResourceInfo.envs x)
  ∧ (∀ k l i v, k ∈ ["groups"; "envs"] → d !! k = Some (PList l) →
                l !! i = Some v → (∀ s, v ≠ PStr s) →
                is_ok r = false
                ∧ mkError string_type [Key k; Idx i] ∈ errors_of r
                ∧ kind_of string_type = TypeMismatch).
Proof.
  cbv zeta. split_and!.
  - intros Hd.
    assert (mkError missing [Key "name"]
              ∈ errors_of (ResourceInfo.model_validate imp (PDict d))) as Hin.
    { rewrite resource_fields_errors, (required_absent _ _ _ Hd). set_solver. }
    split; [by eapply errors_not_ok | done].
  - intros v Hd Hv.
    assert (mkError string_type [Key "name"]
              ∈ errors_of (ResourceInfo.model_validate imp (PDict d))) as Hin.
    { rewrite resource_fields_errors, (required_present _ _ _ _ Hd),
        (str_schema_not_str _ Hv). set_solver. }
    split; [by eapply errors_not_ok | done].
  - intros s Hd Hnone.
    unfold ResourceInfo.model_validate, model_schema, ResourceInfo.fields.
    rewrite (required_present _ _ _ _ Hd).
    rewrite !with_default_None_absent by (apply Hnone; set_solver). done.
  - intros x H.
    unfold ResourceInfo.model_validate, model_schema, ResourceInfo.fields in H.
    fields_inv H. simpl. split_and!.
    + match goal with
      | Hn : required d "name" _ = Ok _ |- _ =>
          by apply required_Ok_inv in Hn as (v & -> & ->%str_schema_Ok_inv)
      end.
    + by apply with_default_None_list_of_str.
    + by apply with_default_None_list_of_str.
  - intros k l i v Hk Hd Hi Hv.
    pose proof (resource_item_not_str imp d k l i v Hk Hd Hi Hv) as Hin.
    split; [by eapply errors_not_ok | done].
Qed.

(** An instance: a resource with the groups "video" and 7. *)
Lemma resource_info_name_and_lists_witness :
  is_ok (ResourceInfo.model_validate plain_imports
           (PDict (<["name" := PStr "camera"]>
                     {["groups" := PList [PStr "video"; PInt 7]]}))) = false.
Proof.
  destruct (resource_info_name_and_lists plain_imports
              (<["name" := PStr "camera"]> {["groups" := PList [PStr "video"; PInt 7]]}))
    as (_ & _ & _ & _ & Hitem).
  apply (Hitem "groups" [PStr "video"; PInt 7] 1%nat (PInt 7));
    [apply list_elem_of_here | reflexivity | reflexivity | discriminate].
Defined.

(** ** A node, field by field *)

Lemma is_ok_required {A} d k (schema : pyval → result A) :
  is_ok (required d k schema) = true
  ↔ ∃ v, d !! k = Some v ∧ is_ok (schema v) = true.
Proof.
  unfold required. destruct (d !! k) as [v|]; result_simpl.
  - split; [eauto | by intros (? & [= <-] & ?)].
  - split; [done | by intros (? & ? & ?)].
Qed.

Lemma is_ok_with_default_None {A} d k (schema : pyval → result A) :
  is_ok (with_default_None d k schema) = true
  ↔ ∀ v, d !! k = Some v → is_ok (schema v) = true.
Proof.
  unfold with_default_None. destruct (d !! k) as [v|]; result_simpl.
  - split; [by intros ? ? [= <-] | eauto].
  - split; [by intros _ ? ? | done].
Qed.

Lemma is_ok_list_of_str v :
  is_ok (list_schema str_schema v) = true ↔ ∃ ss, v = PList (PStr <$> ss).
Proof.
  rewrite is_ok_true. split; intros [ss Hss]; exists ss; by apply list_of_str_Ok.
Qed.

Lemma node_fields_errors imp d :
  errors_of (NodeConfig.model_validate imp (PDict d)) =
    errors_of (node_type_field imp d) ++
    errors_of (node_id_field imp d) ++
    errors_of (with_default_None d "alertRules" AlertRules.model_validate) ++
    errors_of (with_default_None d "resourceRatios" ResourceRatiosInfo.model_validate) ++
    errors_of (with_default_None d "devices" (list_schema (validate (AosDeviceInfo imp)))) ++
    errors_of (with_default_None d "resources"
                 (list_schema (ResourceInfo.model_validate imp))) ++
    errors_of (with_default_None d "labels" (list_schema str_schema)) ++
    errors_of (required d "priority" (int_schema priority_bounds)).
Proof.
  unfold NodeConfig.model_validate, model_schema, NodeConfig.fields.
  result_simpl. by rewrite <- !app_assoc.
Qed.

Lemma node_missing imp d k :
  k ∈ ["nodeType"; "priority"] → d !! k = None →
  mkError missing [Key k] ∈ errors_of (NodeConfig.model_validate imp (PDict d)).
Proof.
  intros Hk Hd. rewrite node_fields_errors. unfold node_type_field.
  repeat (apply elem_of_cons in Hk as [->|Hk]); [..|by apply elem_of_nil in Hk];
    rewrite (required_absent _ _ _ Hd); set_solver.
Qed.

Lemma node_optional_fields imp d x :
  NodeConfig.model_validate imp (PDict d) = Ok x →
  (is_Some (NodeConfig.node_id x) ↔ is_Some (d !! "nodeId"))
  ∧ (is_Some (NodeConfig.alert_rules x) ↔ is_Some (d !! "alertRules"))
  ∧ (is_Some (NodeConfig.resource_ratios x) ↔ is_Some (d !! "resourceRatios"))
  ∧ (is_Some (NodeConfig.devices x) ↔ is_Some (d !! "devices"))
  ∧ (is_Some (NodeConfig.resources x) ↔ is_Some (d !! "resources"))
  ∧ (is_Some (NodeConfig.labels x) ↔ is_Some (d !! "labels")).
Proof.
  unfold NodeConfig.model_validate, model_schema, NodeConfig.fields, node_id_field.
  intros H. fields_inv H. simpl.
  repeat match goal with
         | H : with_default_None _ _ _ = Ok _ |- _ =>
             apply with_default_None_is_Some in H
         end.
  by split_and!.
Qed.

(** A node document is accepted exactly when each of its fields is: the
    node type and the priority are there and valid, and each of nodeId,
    alertRules, resourceRatios, devices, resources and labels is absent or
    valid for its own type (labels: a list of strings).  Without nodeType
    or without priority the document is rejected, the field being reported
    missing.  The accepted instance has a value for an optional field
    exactly when the document has the key. *)
Theorem node_config_field_by_field (imp : Imports) (d : gmap string pyval) :
  let r := NodeConfig.model_validate imp (PDict d) in
  (is_ok r = true
   ↔ (∃ v, d !! "nodeType" = Some v
         ∧ is_ok (validate (TypeNodeTypeMandatory imp) v) = true)
     ∧ (∀ v, d !! "nodeId" = Some v →
             is_ok (validate (TypeNodeIdOptional imp) v) = true)
     ∧ (∀ v, d !! "alertRules" = Some v → is_ok (AlertRules.model_validate v) = true)
     ∧ (∀ v, d !! "resourceRatios" = Some v →
             is_ok (ResourceRatiosInfo.model_validate v) = true)
     ∧ (∀ v, d !! "devices" = Some v →
             is_ok (list_schema (validate (AosDeviceInfo imp)) v) = true)
     ∧ (∀ v, d !! "resources" = Some v →
             is_ok (list_schema (ResourceInfo.model_validate imp) v) = true)
     ∧ (∀ v, d !! "labels" = Some v → ∃ ss, v = PList (PStr <$> ss))
     ∧ (∃ v, d !! "priority" = Some v
           ∧ is_ok (int_schema priority_bounds v) = true))
  ∧ (∀ k, k ∈ ["nodeType"; "priority"] → d !! k = None →
          is_ok r = false ∧ mkError missing [Key k] ∈ errors_of r)
  ∧ (∀ x, r = Ok x →
       (is_Some (NodeConfig.node_id x) ↔ is_Some (d !! "nodeId"))
       ∧ (is_Some (NodeConfig.alert_rules x) ↔ is_Some (d !! "alertRules"))
       ∧ (is_Some (NodeConfig.resource_ratios x) ↔ is_Some (d !! "resourceRatios"))
       ∧ (is_Some (NodeConfig.devices x) ↔ is_Some (d !! "devices"))
       ∧ (is_Some (NodeConfig.resources x) ↔ is_Some (d !! "resources"))
       ∧ (is_Some (NodeConfig.labels x) ↔ is_Some (d !! "labels"))).
Proof.
  cbv zeta. split_and!.
  - unfold NodeConfig.model_validate, model_schema, NodeConfig.fields,
      node_type_field, node_id_field.
    result_simpl. fold priority_bounds.
    rewrite !andb_true_iff, !is_ok_required, !is_ok_with_default_None.
    setoid_rewrite is_ok_list_of_str. tauto.
  - intros k Hk Hd. pose proof (node_missing imp d k Hk Hd) as Hin.
    split; [by eapply errors_not_ok | done].
  - apply node_optional_fields.
Qed.

(** An instance: the node document of the scenario is accepted. *)
Lemma node_config_field_by_field_witness :
  is_ok (NodeConfig.model_validate plain_imports (PDict (node_doc (PInt 80)))) = true.
Proof.
  apply node_config_field_by_field. split_and!.
  - exists (PStr "main"). split; reflexivity.
  - intros v Hv. vm_compute in Hv. discriminate Hv.
  - intros v Hv. vm_compute in Hv. injection Hv as <-. reflexivity.
  - intros v Hv. vm_compute in Hv. discriminate Hv.
  - intros v Hv. vm_compute in Hv. discriminate Hv.
  - intros v Hv. vm_compute in Hv. discriminate Hv.
  - intros v Hv. vm_compute in Hv. discriminate Hv.
  - exists (PInt 5). split; reflexivity.
Defined.

(** ** A unit: three required fields, a list of nodes *)

Lemma is_ok_list_items {A} (item : pyval → result A) i l :
  is_ok (list_items item i l) = true ↔ Forall (λ w, is_ok (item w) = true) l.
Proof.
  revert i. induction l as [|w l IH]; intros i; simpl.
  - split; [constructor | done].
  - result_simpl. rewrite andb_true_iff, IH, Forall_cons. done.
Qed.

Lemma is_ok_list_schema {A} (item : pyval → result A) v :
  is_ok (list_schema item v) = true
  ↔ ∃ l, v = PList l ∧ Forall (λ w, is_ok (item w) = true) l.
Proof.
  destruct v as [| | | | |l|]; simpl;
    try (split; [done | by intros (? & ? & ?)]).
  rewrite is_ok_list_items. split; [eauto | by intros (? & [= <-] & ?)].
Qed.

Lemma list_items_length {A} (item : pyval → result A) i l xs :
  list_items item i l = Ok xs → length xs = length l.
Proof.
  intros H%list_items_Ok_inv. symmetry. by eapply Forall2_length.
Qed.

Lemma unit_fields_errors imp d :
  errors_of (UnitConfig.model_validate imp (PDict d)) =
    errors_of (required d "formatVersion" str_or_int_schema) ++
    errors_of (version_field imp d) ++
    errors_of (required d "nodes" (list_schema (NodeConfig.model_validate imp))).
Proof.
  unfold UnitConfig.model_validate, model_schema, UnitConfig.fields.
  result_simpl. by rewrite <- !app_assoc.
Qed.

Lemma unit_missing imp d k :
  k ∈ ["formatVersion"; "version"; "nodes"] → d !! k = None →
  mkError missing [Key k] ∈ errors_of (UnitConfig.model_validate imp (PDict d)).
Proof.
  intros Hk Hd. rewrite unit_fields_errors. unfold version_field.
  repeat (apply elem_of_cons in Hk as [->|Hk]); [..|by apply elem_of_nil in Hk];
    rewrite (required_absent _ _ _ Hd); set_solver.
Qed.

Lemma unit_nodes_not_list imp d v :
  d !! "nodes" = Some v → (∀ l, v ≠ PList l) →
  mkError list_type [Key "nodes"]
    ∈ errors_of (UnitConfig.model_validate imp (PDict d)).
Proof.
  intros Hd Hv. rewrite unit_fields_errors, (required_present _ _ _ _ Hd).
  assert (list_schema (NodeConfig.model_validate imp) v = fail list_type) as ->.
  { destruct v; try done. by destruct (Hv l). }
  set_solver.
Qed.

(** A unit document needs formatVersion, version and nodes: without one of
    them it is rejected, the field being reported missing.  What is under
    nodes has to be a list, or the document is rejected for its structure
    at nodes.  The document is accepted exactly when the format version
    and the version are valid and every item of the list is accepted as a
    node, whatever the length of the list, none included; and the accepted
    instance has as many nodes as the list has items. *)
Theorem unit_config_fields (imp : Imports) (d : gmap string pyval) :
  let r := UnitConfig.model_validate imp (PDict d) in
  (∀ k, k ∈ ["formatVersion"; "version"; "nodes"] → d !! k = None →
        is_ok r = false ∧ mkError missing [Key k] ∈ errors_of r)
  ∧ (∀ v, d !! "nodes" = Some v → (∀ l, v ≠ PList l) →
          is_ok r = false
          ∧ mkError list_type [Key "nodes"] ∈ errors_of r
          ∧ kind_of list_type = StructuralViolation)
  ∧ (is_ok r = true
     ↔ (∃ v, d !! "formatVersion" = Some v ∧ is_ok (str_or_int_schema v) = true)
       ∧ (∃ v, d !! "version" = Some v
             ∧ is_ok (validate (TypeVersionMandatory imp) v) = true)
       ∧ (∃ l, d !! "nodes" = Some (PList l)
             ∧ Forall (λ w, is_ok (NodeConfig.model_validate imp w) = true) l))
  ∧ (∀ x, r = Ok x →
          ∃ l, d !! "nodes" = Some (PList l)
             ∧ length (UnitConfig.nodes x) = length l).
Proof.
  cbv zeta. split_and!.
  - intros k Hk Hd. pose proof (unit_missing imp d k Hk Hd) as Hin.
    split; [by eapply errors_not_ok | done].
  - intros v Hd Hv. pose proof (unit_nodes_not_list imp d v Hd Hv) as Hin.
    split; [by eapply errors_not_ok | done].
  - unfold UnitConfig.model_validate, model_schema, UnitConfig.fields, version_field.
    result_simpl. rewrite !andb_true_iff, !is_ok_required.
    setoid_rewrite is_ok_list_schema. split.
    + intros [[Hfv Hver] (v & Hd & l & -> & Hl)]. eauto 10.
    + intros (Hfv & Hver & l & Hd & Hl). eauto 10.
  - intros x H.
    unfold UnitConfig.model_validate, model_schema, UnitConfig.fields in H.
    fields_inv H. simpl.
    match goal with
    | Hn : required d "nodes" _ = Ok _ |- _ =>
        apply required_Ok_inv in Hn as (v & Hd & Hv)
    end.
    destruct v as [| | | | |l|]; try done.
    exists l. split; [done|]. by eapply list_items_length.
Qed.

(** An instance: a unit without any node is accepted. *)
Lemma unit_config_fields_witness :
  is_ok (UnitConfig.model_validate plain_imports
           (PDict (<["formatVersion" := PInt 2]> (<["version" := PStr "1.0.0"]>
                     {["nodes" := PList []]})))) = true.
Proof.
  apply unit_config_fields. split_and!.
  - exists (PInt 2). split; reflexivity.
  - exists (PStr "1.0.0"). split; reflexivity.
  - exists []. split; [reflexivity | constructor].
Defined.

(** ** The two forms of the format version *)

Lemma str_or_int_Str v s : str_or_int_schema v = Ok (Str s) ↔ v = PStr s.
Proof.
  split; [|by intros ->].
  unfold str_or_int_schema.
  destruct v; simpl; try (by intros [= ->]); try done;
    repeat case_match; by intros.
Qed.

Lemma str_or_int_Int_not_str v z : str_or_int_schema v = Ok (Int z) → ∀ s, v ≠ PStr s.
Proof. intros Hv s ->. done. Qed.

Lemma str_or_int_not_numeric v :
  not_numeric v →
  str_or_int_schema v
  = ValidationError [mkError string_type [Key "str"]; mkError int_type [Key "int"]].
Proof. by intros [->|[[l ->]|[m ->]]]. Qed.

(** The format version is a string or an integer and stays what it is: the
    accepted unit has the string [s] for format version exactly when the
    document has the string [s] under formatVersion, so that a string which
    spells a number is not made a number, and it has an integer only when
    the document has something else than a string.  A null, a list or an
    object under formatVersion fits neither form: the document is rejected
    with the type mismatches of both, each under the tag of its form. *)
Theorem format_version_keeps_its_form (imp : Imports) (d : gmap string pyval) :
  let r := UnitConfig.model_validate imp (PDict d) in
  (∀ x, r = Ok x →
     (∀ s, UnitConfig.format_version x = Str s
           ↔ d !! "formatVersion" = Some (PStr s))
     ∧ (∀ z, UnitConfig.format_version x = Int z →
             ∀ s, d !! "formatVersion" ≠ Some (PStr s)))
  ∧ (∀ v, d !! "formatVersion" = Some v → not_numeric v →
          is_ok r = false
          ∧ mkError string_type [Key "formatVersion"; Key "str"] ∈ errors_of r
          ∧ mkError int_type [Key "formatVersion"; Key "int"] ∈ errors_of r
          ∧ kind_of string_type = TypeMismatch ∧ kind_of int_type = TypeMismatch).
Proof.
  cbv zeta. split.
  - intros x H.
    unfold UnitConfig.model_validate, model_schema, UnitConfig.fields in H.
    fields_inv H. simpl.
    match goal with
    | Hn : required d "formatVersion" _ = Ok _ |- _ =>
        apply required_Ok_inv in Hn as (v & Hd & Hv)
    end.
    rewrite Hd. split.
    + intros s. split.
      * intros ->. by apply str_or_int_Str in Hv as ->.
      * intros [= ->]. simpl in Hv. by injection Hv as <-.
    + intros z -> s [= ->]. done.
  - intros v Hd Hv.
    assert (errors_of (required d "formatVersion" str_or_int_schema)
            = [mkError string_type [Key "formatVersion"; Key "str"];
               mkError int_type [Key "formatVersion"; Key "int"]]) as Herr.
    { by rewrite (required_present _ _ _ _ Hd), (str_or_int_not_numeric _ Hv). }
    assert (mkError string_type [Key "formatVersion"; Key "str"]
              ∈ errors_of (UnitConfig.model_validate imp (PDict d))) as Hin1.
    { rewrite unit_fields_errors, Herr. set_solver. }
    assert (mkError int_type [Key "formatVersion"; Key "int"]
              ∈ errors_of (UnitConfig.model_validate imp (PDict d))) as Hin2.
    { rewrite unit_fields_errors, Herr. set_solver. }
    split; [by eapply errors_not_ok | done].
Qed.

(** An instance: the unit document whose format version is the string 2. *)
Lemma format_version_keeps_its_form_witness :
  ∃ x, UnitConfig.model_validate plain_imports (PDict (unit_doc (PStr "2"))) = Ok x
     ∧ UnitConfig.format_version x = Str "2".
Proof.
  eexists. split; [reflexivity|].
  eapply (format_version_keeps_its_form plain_imports (unit_doc (PStr "2")));
    reflexivity.
Defined.

(** ** What is accepted is within bounds, all the way down *)








(** ** The errors of a unit under nodes.i are those of node i *)

Lemma list_items_errors_iff {A} (item : pyval → result A) l i e' :
  e' ∈ errors_of (list_items item i l)
  ↔ ∃ n w e, l !! n = Some w ∧ e ∈ errors_of (item w)
           ∧ e' = outer_loc (Idx (i + n)) e.
Proof.
  revert i. induction l as [|w l IH]; intros i; simpl.
  - split; [by intros ?%elem_of_nil | by intros (n & ? & ? & ? & _)].
  - result_simpl. rewrite elem_of_app, IH, list_elem_of_fmap. split.
    + intros [(e & -> & He)|(n & w' & e & Hn & He & ->)].
      * exists 0%nat, w, e. by rewrite Nat.add_0_r.
      * exists (S n), w', e. split_and!; [done..|]. do 2 f_equal. lia.
    + intros (n & w' & e & Hn & He & ->). destruct n as [|n]; simpl in Hn.
      * left. injection Hn as <-. exists e. by rewrite Nat.add_0_r.
      * right. exists n, w', e. split_and!; [done..|]. do 2 f_equal. lia.
Qed.

Lemma required_errors_loc {A} d k (schema : pyval → result A) e :
  e ∈ errors_of (required d k schema) → ∃ loc, err_loc e = Key k :: loc.
Proof.
  unfold required. destruct (d !! k) as [v|].
  - rewrite errors_of_at_loc. intros (e0 & -> & _)%list_elem_of_fmap. by eexists.
  - intros ->%list_elem_of_singleton. by eexists.
Qed.

(** The validation of a unit reports under nodes.i what the validation of
    its i-th node reports, no less and no more: an error of type [t] is
    located at nodes.i followed by [loc] exactly when the i-th item of the
    list is there and its validation as a node has the error of type [t] at
    [loc].  The errors of the nodes are all collected, and those of one
    node never depend on the others or on the rest of the unit. *)
Theorem unit_reports_node_errors_exactly (imp : Imports) (d : gmap string pyval)
    (l : list pyval) (i : nat) (t : error_type) (loc : list loc_item) :
  d !! "nodes" = Some (PList l) →
  mkError t (Key "nodes" :: Idx i :: loc)
    ∈ errors_of (UnitConfig.model_validate imp (PDict d))
  ↔ ∃ w, l !! i = Some w
       ∧ mkError t loc ∈ errors_of (NodeConfig.model_validate imp w).
Proof.
  intros Hd. rewrite unit_fields_errors, !elem_of_app. split.
  - intros [He|[He|He]].
    + apply required_errors_loc in He as (? & [=]).
    + apply required_errors_loc in He as (? & [=]).
    + rewrite (required_present _ _ _ _ Hd), errors_of_at_loc in He.
      apply list_elem_of_fmap in He as (e0 & [= Ht Hloc] & He0).
      simpl in He0. apply list_items_errors_iff in He0 as (n & w & e & Hn & He & ->).
      simpl in Hloc, Ht. injection Hloc as -> ->. subst t.
      exists w. split; [done|]. by destruct e.
  - intros (w & Hi & He). right. right.
    rewrite (required_present _ _ _ _ Hd), errors_of_at_loc.
    apply list_elem_of_fmap. exists (mkError t (Idx i :: loc)). split; [done|].
    simpl. apply list_items_errors_iff. by exists i, w, (mkError t loc).
Qed.

(** An instance: the second node of a unit lacks its priority. *)
Lemma unit_reports_node_errors_exactly_witness :
  mkError missing [Key "nodes"; Idx 1; Key "priority"]
  ∈ errors_of
      (UnitConfig.model_validate plain_imports
         (PDict {["nodes" := PList [PDict (node_doc (PInt 80));
                                     PDict {["nodeType" := PStr "main"]}]]})).
Proof.
  apply (unit_reports_node_errors_exactly plain_imports _
           [PDict (node_doc (PInt 80)); PDict {["nodeType" := PStr "main"]}]);
    [reflexivity|].
  eexists. split; [reflexivity|]. vm_compute. apply list_elem_of_here.
Defined.
